(** * Incremental indexing of a RAG document store

    A shallow embedding of the file tracker ([indexer/file_tracker.py]), the
    vector store wrapper ([common/vector_store.py]), the document indexer
    ([indexer/main.py]) and the answer generator ([search/rag_chain.py]).

    The two ChromaDB collections are finite maps / lists held in an explicit
    state, the file system and the fault status of the stores are a read-only
    world, and every function of the source that prints, hashes a file or
    talks to a store appends the corresponding event to a trace. *)

From Stdlib Require Import String Ascii ZArith NArith List.
From stdpp Require Import base option gmap strings list pretty.
Import ListNotations.
Open Scope string_scope.

(** ** Strings and paths *)

Definition nl : string := String (ascii_of_nat 10) EmptyString.

(** [str.endswith] *)
Definition endswith (s suf : string) : bool :=
  (String.length suf <=? String.length s)%nat
  && String.eqb
       (substring (String.length s - String.length suf) (String.length suf) s)
       suf.

(** [str.startswith], returning what follows the prefix *)
Fixpoint strip_prefix (pre s : string) : option string :=
  match pre, s with
  | EmptyString, _ => Some s
  | String a pre', String b s' =>
      if Ascii.eqb a b then strip_prefix pre' s' else None
  | String _ _, EmptyString => None
  end.

Fixpoint contains_char (c : ascii) (s : string) : bool :=
  match s with
  | EmptyString => false
  | String a r => Ascii.eqb a c || contains_char c r
  end.

(** [os.path.basename]: what follows the last slash *)
Fixpoint basename (p : string) : string :=
  match p with
  | EmptyString => EmptyString
  | String c r =>
      if Ascii.eqb c "/" then basename r
      else if contains_char "/" r then basename r else p
  end.

Fixpoint strip_dots (s : string) : string :=
  match s with
  | String c r => if Ascii.eqb c "." then strip_dots r else s
  | EmptyString => EmptyString
  end.

(** The suffix of [s] that starts at its last dot, empty when there is none *)
Fixpoint from_last_dot (s : string) : string :=
  match s with
  | EmptyString => EmptyString
  | String c r =>
      match from_last_dot r with
      | EmptyString => if Ascii.eqb c "." then s else EmptyString
      | e => e
      end
  end.

(** [os.path.splitext(p)[1]]: leading dots of the file name do not start an
    extension *)
Definition splitext_ext (p : string) : string :=
  match strip_dots (basename p) with
  | EmptyString => EmptyString
  | String _ r => from_last_dot r
  end.

Definition lower_ascii (c : ascii) : ascii :=
  let n := nat_of_ascii c in
  if ((65 <=? n) && (n <=? 90))%nat then ascii_of_nat (n + 32) else c.

(** [str.lower] on ASCII text *)
Fixpoint lower (s : string) : string :=
  match s with
  | EmptyString => EmptyString
  | String c r => String (lower_ascii c) (lower r)
  end.

(** [s[:n]] *)
Definition take_str (n : nat) (s : string) : string := substring 0 n s.

(** ** Digests

    [hashlib.md5(...).hexdigest()] is the 128-bit digest written as 32
    lowercase hexadecimal digits.  The compression function itself is a
    parameter of the development; the rendering is modelled. *)

Definition hex_char (n : N) : ascii :=
  match n with
  | 0 => "0" | 1 => "1" | 2 => "2" | 3 => "3" | 4 => "4" | 5 => "5"
  | 6 => "6" | 7 => "7" | 8 => "8" | 9 => "9" | 10 => "a" | 11 => "b"
  | 12 => "c" | 13 => "d" | 14 => "e" | _ => "f"
  end%N%char.

Fixpoint hex_digits (n : nat) (d : N) (acc : string) : string :=
  match n with
  | O => acc
  | S n' => hex_digits n' (N.shiftr d 4) (String (hex_char (N.land d 15)) acc)
  end.

Definition hexdigest (d : N) : string := hex_digits 32 d EmptyString.

(** ** Data model *)

(** A value of a ChromaDB metadata dictionary *)
Inductive MetaVal :=
| MStr (s : string)
| MInt (z : Z).

Global Instance MetaVal_eq_dec : EqDecision MetaVal.
Proof. solve_decision. Defined.

(** [langchain.schema.Document] *)
Record Document := mkDocument {
  page_content : string;
  doc_metadata : gmap string MetaVal
}.

(** The result of a call that may raise *)
Inductive Outcome (A : Type) :=
| Returned (a : A)
| Raised (msg : string).
Arguments Returned {A} a.
Arguments Raised {A} msg.

Inductive Kind := RegularFile | Directory.

(** What the file system and the loaders answer for one path.  [st_mtime] is
    a float timestamp in the source; only its equality is used, so it is a
    tick count here.  [bytes] is [None] when opening or reading the file
    raises [IOError]; [loaded] is what [PyPDFLoader]/[TextLoader] does with
    the file. *)
Record FileEntry := mkFileEntry {
  kind : Kind;
  st_size : Z;
  st_mtime : Z;
  bytes : option string;
  loaded : Outcome (list Document)
}.

(** The dictionary built by [get_file_metadata] and stored, with
    [chunk_count] added, in the [file_metadata] collection.  The two optional
    fields are the keys that are not always present. *)
Record Metadata := mkMetadata {
  file_id : string;
  file_path : string;
  file_name : string;
  size : Z;
  mtime : Z;
  extension : string;
  indexed_at : Z;
  content_hash : option string;
  chunk_count : option nat
}.

Definition with_chunk_count (m : Metadata) (n : nat) : Metadata :=
  mkMetadata (file_id m) (file_path m) (file_name m) (size m) (mtime m)
    (extension m) (indexed_at m) (content_hash m) (Some n).

Definition with_file_id (m : Metadata) (id : string) : Metadata :=
  mkMetadata id (file_path m) (file_name m) (size m) (mtime m)
    (extension m) (indexed_at m) (content_hash m) (chunk_count m).

(** One entry of the document collection *)
Record Chunk := mkChunk {
  chunk_uid : nat;
  chunk_text : string;
  chunk_meta : gmap string MetaVal
}.

Inductive Status := new | modified | unchanged | not_found.

Global Instance Status_eq_dec : EqDecision Status.
Proof. solve_decision. Defined.

Inductive Level := Plain | Info | Success | Warning | Error.

(** The observable operations of a run, in the order they happen *)
Inductive Event :=
| EPrint (lvl : Level) (msg : string)
| EHash (path : string)
| ECompare (key : string)
| EMetaGet (id : string)
| EMetaGetAll
| EMetaAdd (id : string)
| EMetaUpdate (id : string)
| EMetaDelete (id : string)
| EVecGet (fid : string)
| EVecAdd (n : nat)
| EVecDelete (uids : list nat)
| ELoad (path : string).

Global Instance Level_eq_dec : EqDecision Level.
Proof. solve_decision. Defined.

Global Instance Event_eq_dec : EqDecision Event.
Proof. solve_decision. Defined.

(** The read-only environment of a run.  A store whose fault is [Some msg]
    raises an exception with that message on every call. *)
Record World := mkWorld {
  fs : gmap string FileEntry;
  clock : Z;
  meta_fault : option string;
  vec_fault : option string
}.

(** The mutable state: the [file_metadata] collection, the document
    collection, the supply of fresh chunk ids and the trace. *)
Record St := mkSt {
  meta : gmap string Metadata;
  vectors : list Chunk;
  next_uid : nat;
  trace : list Event
}.

(** ** The state monad of the embedding *)

Definition M (A : Type) : Type := St -> A * St.

Definition ret {A} (a : A) : M A := fun s => (a, s).

Definition bind {A B} (c : M A) (k : A -> M B) : M B :=
  fun s => let (a, s') := c s in k a s'.

Global Instance M_bind : MBind M := fun A B k c => bind c k.

Definition emit (e : Event) : M unit :=
  fun s => (tt, mkSt (meta s) (vectors s) (next_uid s) (trace s ++ [e])).

Definition get_meta : M (gmap string Metadata) := fun s => (meta s, s).
Definition get_vectors : M (list Chunk) := fun s => (vectors s, s).

Definition set_meta (m : gmap string Metadata) : M unit :=
  fun s => (tt, mkSt m (vectors s) (next_uid s) (trace s)).

Definition set_vectors (v : list Chunk) : M unit :=
  fun s => (tt, mkSt (meta s) v (next_uid s) (trace s)).

(** [n] fresh ids, as [uuid.uuid4()] gives them *)
Definition fresh_uids (n : nat) : M (list nat) :=
  fun s => (seq (next_uid s) n,
            mkSt (meta s) (vectors s) (next_uid s + n) (trace s)).

Fixpoint for_each {A} (l : list A) (body : A -> M unit) : M unit :=
  match l with
  | [] => ret tt
  | x :: r => body x;; for_each r body
  end.

(** [common/utils.py] *)
Definition print (msg : string) : M unit := emit (EPrint Plain msg).
Definition print_info (msg : string) : M unit := emit (EPrint Info msg).
Definition print_success (msg : string) : M unit := emit (EPrint Success msg).
Definition print_warning (msg : string) : M unit := emit (EPrint Warning msg).
Definition print_error (msg : string) : M unit := emit (EPrint Error msg).
Definition print_section_header (title : string) : M unit :=
  print (nl ++ "=== " ++ title ++ " ===").

(** [log_events s es] is [s] with the events [es] appended to its trace and
    both collections untouched. *)
Definition log_events (s : St) (es : list Event) : St :=
  mkSt (meta s) (vectors s) (next_uid s) (trace s ++ es).

(** ** The stores *)

Section Indexer.

(** [os.path.abspath], the MD5 compression function and
    [RecursiveCharacterTextSplitter.split_documents] are collaborators whose
    results are not modelled. *)
Variable abspath : string -> string.
Variable md5 : string -> N.
Variable split_documents : list Document -> list Document.
Variable w : World.

Definition exists_path (p : string) : bool := bool_decide (is_Some (fs w !! p)).

Definition isfile (p : string) : bool :=
  match fs w !! p with
  | Some e => match kind e with RegularFile => true | Directory => false end
  | None => false
  end.

Definition isdir (p : string) : bool :=
  match fs w !! p with
  | Some e => match kind e with Directory => true | RegularFile => false end
  | None => false
  end.

(** A call to the [file_metadata] collection: the event is recorded, then the
    call raises when the store is faulty and otherwise runs [op]. *)
Definition meta_call {A} (e : Event) (op : M A) : M (Outcome A) :=
  emit e;;
  match meta_fault w with
  | Some msg => ret (Raised msg)
  | None => a ← op; ret (Returned a)
  end.

(** [metadata_collection.get(ids=[file_id])] *)
Definition meta_get (id : string) : M (Outcome (option Metadata)) :=
  meta_call (EMetaGet id) (m ← get_meta; ret (m !! id)).

(** [metadata_collection.get()] *)
Definition meta_get_all : M (Outcome (list (string * Metadata))) :=
  meta_call EMetaGetAll (m ← get_meta; ret (map_to_list m)).

(** [metadata_collection.add] *)
Definition meta_add (id : string) (md : Metadata) : M (Outcome unit) :=
  meta_call (EMetaAdd id) (m ← get_meta; set_meta (<[id := md]> m)).

(** [metadata_collection.update] *)
Definition meta_update (id : string) (md : Metadata) : M (Outcome unit) :=
  meta_call (EMetaUpdate id) (m ← get_meta; set_meta (<[id := md]> m)).

(** [metadata_collection.delete(ids=[file_id])] *)
Definition meta_delete (id : string) : M (Outcome unit) :=
  meta_call (EMetaDelete id) (m ← get_meta; set_meta (delete id m)).

Definition vec_call {A} (e : Event) (op : M A) : M (Outcome A) :=
  emit e;;
  match vec_fault w with
  | Some msg => ret (Raised msg)
  | None => a ← op; ret (Returned a)
  end.

(** The [where={"file_id": file_id}] filter *)
Definition tagged (fid : string) (c : Chunk) : bool :=
  bool_decide (chunk_meta c !! "file_id" = Some (MStr fid)).

(** The [ValueError] with which chromadb turns down [ids] as an item of
    [include]: the items [collection.get] accepts are embeddings, documents,
    metadatas, uris and data, and the list is checked before the collection
    is read.  The wording is the library's; the properties below use only
    that the call raises. *)
Definition include_refused : string :=
  "Expected include item to be one of embeddings, documents, metadatas, uris, data, got ids".

(** [collection.get(where={"file_id": file_id}, include=['ids'])]: the
    include list names [ids], so the call raises on every collection and
    never answers a list of ids. *)
Definition vec_get_by_file_id (fid : string) : M (Outcome (list nat)) :=
  emit (EVecGet fid);;
  match vec_fault w with
  | Some msg => ret (Raised msg)
  | None => ret (Raised include_refused)
  end.

(** [collection.delete(ids=...)] *)
Definition vec_delete (uids : list nat) : M (Outcome unit) :=
  vec_call (EVecDelete uids)
    (v ← get_vectors;
     set_vectors
       (List.filter (fun c => negb (bool_decide (chunk_uid c ∈ uids))) v)).

(** The [ValueError] of [collection.add] for an empty list of ids; again
    the wording is the library's and only the raise is used. *)
Definition empty_add_refused : string :=
  "Expected IDs to be a non-empty list, got []".

(** [collection.add(documents, metadatas, ids)]: an empty list of ids is
    turned down, anything else is appended. *)
Definition vec_add (chunks : list Chunk) : M (Outcome unit) :=
  emit (EVecAdd (length chunks));;
  match vec_fault w with
  | Some msg => ret (Raised msg)
  | None =>
      match chunks with
      | [] => ret (Raised empty_add_refused)
      | _ =>
          v ← get_vectors;
          set_vectors (v ++ chunks);;
          ret (Returned tt)
      end
  end.

(** [collection.count()] *)
Definition count (s : St) : nat := length (vectors s).

(** The chunks of the document collection that refer to [fid] *)
Definition chunks_of (fid : string) (s : St) : list Chunk :=
  List.filter (tagged fid) (vectors s).

(** ** [FileTracker] *)

Definition generate_file_id (p : string) : string :=
  hexdigest (md5 (abspath p)).

(** What [get_file_hash] returns for an entry of the file system: the digest
    of the content, or the empty string when [open]/[read] raises [IOError]
    (a directory raises [IsADirectoryError], which is one). *)
Definition hash_of_entry (e : FileEntry) : string :=
  match kind e, bytes e with
  | RegularFile, Some content => hexdigest (md5 content)
  | _, _ => EmptyString
  end.

Definition get_file_hash (p : string) : M string :=
  emit (EHash p);;
  match fs w !! p with
  | Some e => ret (hash_of_entry e)
  | None => ret EmptyString
  end.

(** [None] is the empty dictionary the source returns for a missing path *)
Definition get_file_metadata (p : string) (include_hash : bool)
  : M (option Metadata) :=
  match fs w !! p with
  | None => ret None
  | Some e =>
      let md := mkMetadata (generate_file_id p) (abspath p) (basename p)
                  (st_size e) (st_mtime e) (lower (splitext_ext p))
                  (clock w) None None in
      if include_hash then
        h ← get_file_hash p;
        ret (Some (mkMetadata (file_id md) (file_path md) (file_name md)
                     (size md) (mtime md) (extension md) (indexed_at md)
                     (Some h) None))
      else ret (Some md)
  end.

Definition is_file_modified (p : string) : M (bool * Status) :=
  current ← get_file_metadata p false;
  match current with
  | None => ret (false, not_found)
  | Some current_metadata =>
      let fid := file_id current_metadata in
      results ← meta_get fid;
      match results with
      | Raised e =>
          print_warning ("Error checking file metadata: " ++ e);;
          ret (true, new)
      | Returned None => ret (true, new)
      | Returned (Some stored_metadata) =>
          emit (ECompare "mtime");;
          if negb (mtime current_metadata =? mtime stored_metadata)%Z
          then ret (true, modified)
          else
            emit (ECompare "size");;
            if negb (size current_metadata =? size stored_metadata)%Z
            then ret (true, modified)
            else
              current_hash ← get_file_hash p;
              emit (ECompare "content_hash");;
              if negb (bool_decide
                         (Some current_hash = content_hash stored_metadata))
              then ret (true, modified)
              else ret (false, unchanged)
      end
  end.

(** The answer for a tracked file, with the checks in the order of the
    source: modification time, size, then the content hash. *)
Definition tracked_answer (p : string) (e : FileEntry) (sm : Metadata) (s : St)
  : (bool * Status) * St :=
  let fid := generate_file_id p in
  if negb (st_mtime e =? mtime sm)%Z then
    ((true, modified), log_events s [EMetaGet fid; ECompare "mtime"])
  else if negb (st_size e =? size sm)%Z then
    ((true, modified),
     log_events s [EMetaGet fid; ECompare "mtime"; ECompare "size"])
  else
    (if bool_decide (Some (hash_of_entry e) = content_hash sm)
     then (false, unchanged) else (true, modified),
     log_events s [EMetaGet fid; ECompare "mtime"; ECompare "size";
                   EHash p; ECompare "content_hash"]).

(** The classification as section 4.2 of the specification words it: no
    record, then size, then modification time, then the content hash.  It is
    only compared with [is_file_modified]; nothing else uses it. *)
Definition spec_order_is_file_modified (p : string) : M (bool * Status) :=
  current ← get_file_metadata p false;
  match current with
  | None => ret (false, not_found)
  | Some current_metadata =>
      let fid := file_id current_metadata in
      results ← meta_get fid;
      match results with
      | Raised e =>
          print_warning ("Error checking file metadata: " ++ e);;
          ret (true, new)
      | Returned None => ret (true, new)
      | Returned (Some stored_metadata) =>
          emit (ECompare "size");;
          if negb (size current_metadata =? size stored_metadata)%Z
          then ret (true, modified)
          else
            emit (ECompare "mtime");;
            if negb (mtime current_metadata =? mtime stored_metadata)%Z
            then ret (true, modified)
            else
              current_hash ← get_file_hash p;
              emit (ECompare "content_hash");;
              if negb (bool_decide
                         (Some current_hash = content_hash stored_metadata))
              then ret (true, modified)
              else ret (false, unchanged)
      end
  end.

Definition store_file_metadata (p : string) (chunks : nat) : M bool :=
  md ← get_file_metadata p true;
  match md with
  | None => ret false
  | Some metadata0 =>
      let fid := file_id metadata0 in
      let metadata := with_chunk_count metadata0 chunks in
      existing ← meta_get fid;
      match existing with
      | Raised e =>
          print_error ("Error storing file metadata: " ++ e);; ret false
      | Returned (Some _) =>
          r ← meta_update fid metadata;
          match r with
          | Raised e =>
              print_error ("Error storing file metadata: " ++ e);; ret false
          | Returned _ =>
              print_info ("Updated metadata for: " ++ file_name metadata);;
              ret true
          end
      | Returned None =>
          r ← meta_add fid metadata;
          match r with
          | Raised e =>
              print_error ("Error storing file metadata: " ++ e);; ret false
          | Returned _ =>
              print_info ("Added metadata for: " ++ file_name metadata);;
              ret true
          end
      end
  end.

Definition get_file_chunk_count (p : string) : M nat :=
  let fid := generate_file_id p in
  results ← meta_get fid;
  match results with
  | Returned (Some md) => ret (default 0 (chunk_count md))
  | _ => ret 0
  end.

Definition get_all_tracked_files : M (list Metadata) :=
  results ← meta_get_all;
  match results with
  | Returned l => ret (map (fun kv => with_file_id (snd kv) (fst kv)) l)
  | Raised e => print_warning ("Error getting tracked files: " ++ e);; ret []
  end.

Fixpoint cleanup_loop (existing_abs_paths : list string)
    (tracked_files : list Metadata) (deleted_files : list string)
  : M (list string) :=
  match tracked_files with
  | [] => ret deleted_files
  | file_metadata :: rest =>
      if bool_decide (file_path file_metadata ∈ existing_abs_paths)
      then cleanup_loop existing_abs_paths rest deleted_files
      else
        r ← meta_delete (file_id file_metadata);
        match r with
        | Returned _ =>
            print_info ("Removed deleted file: " ++ file_name file_metadata);;
            cleanup_loop existing_abs_paths rest
              (deleted_files ++ [file_path file_metadata])
        | Raised e =>
            print_warning ("Error removing deleted file metadata: " ++ e);;
            cleanup_loop existing_abs_paths rest deleted_files
        end
  end.

Definition cleanup_deleted_files (existing_file_paths : list string)
  : M (list string) :=
  tracked_files ← get_all_tracked_files;
  cleanup_loop (map abspath existing_file_paths) tracked_files [].

(** Assignment [d[k] = v] on an insertion-ordered dictionary *)
Fixpoint dict_set {V} (k : string) (v : V) (d : list (string * V))
  : list (string * V) :=
  match d with
  | [] => [(k, v)]
  | (k', v') :: r =>
      if String.eqb k k' then (k, v) :: r else (k', v') :: dict_set k v r
  end.

Fixpoint get_modified_files_loop (file_paths : list string)
    (result : list (string * Status)) : M (list (string * Status)) :=
  match file_paths with
  | [] => ret result
  | p :: rest =>
      if exists_path p then
        r ← is_file_modified p;
        get_modified_files_loop rest (dict_set p (snd r) result)
      else get_modified_files_loop rest (dict_set p not_found result)
  end.

Definition get_modified_files (file_paths : list string)
  : M (list (string * Status)) :=
  get_modified_files_loop file_paths [].

(** ** [VectorStore] *)

Definition is_empty_str (s : string) : bool :=
  match s with EmptyString => true | _ => false end.

(** [add_documents(documents, metadatas, file_id=file_id)]: one fresh id per
    text, the [file_id] key set in every metadata when the id is not empty *)
Definition add_documents (documents : list string)
    (metadatas : list (gmap string MetaVal)) (fid : string)
  : M (Outcome (list nat)) :=
  ids ← fresh_uids (length documents);
  let metadatas' :=
    if is_empty_str fid then metadatas
    else map (fun md => <["file_id" := MStr fid]> md) metadatas in
  let chunks :=
    map (fun x => mkChunk (fst (fst x)) (snd (fst x)) (snd x))
      (zip (zip ids documents) metadatas') in
  r ← vec_add chunks;
  match r with
  | Raised e => ret (Raised e)
  | Returned _ =>
      print ("✅ Successfully indexed " ++ pretty (length documents)
             ++ " document chunks!");;
      ret (Returned ids)
  end.

Definition remove_documents_by_file_id (fid : string) : M nat :=
  let failed e :=
    print_warning ("Error removing documents by file_id: " ++ e);; ret 0 in
  results ← vec_get_by_file_id fid;
  match results with
  | Raised e => failed e
  | Returned [] =>
      print_info ("No chunks found for file_id: " ++ take_str 8 fid ++ "...");;
      ret 0
  | Returned ids =>
      r ← vec_delete ids;
      match r with
      | Raised e => failed e
      | Returned _ =>
          let n := length ids in
          print_info ("Removed " ++ pretty n ++ " chunks for file_id: "
                      ++ take_str 8 fid ++ "...");;
          ret n
      end
  end.

(** ** [TextProcessor] and [DocumentLoader] *)

(** The loop of [chunk_documents]: position and length are recorded in the
    metadata of a chunk that has no [chunk_id] yet.  [len] counts code
    points, [String.length] bytes; they agree on ASCII text. *)
Fixpoint number_chunks (i : nat) (chunks : list Document) : list Document :=
  match chunks with
  | [] => []
  | c :: r =>
      (match doc_metadata c !! "chunk_id" with
       | Some _ => c
       | None =>
           mkDocument (page_content c)
             (<["chunk_size" := MInt (Z.of_nat (String.length (page_content c)))]>
                (<["chunk_id" := MInt (Z.of_nat i)]> (doc_metadata c)))
       end) :: number_chunks (S i) r
  end.

Definition chunk_documents (documents : list Document) : M (list Document) :=
  let chunked_docs := number_chunks 0 (split_documents documents) in
  print ("Split " ++ pretty (length documents) ++ " documents into "
         ++ pretty (length chunked_docs) ++ " chunks");;
  ret chunked_docs.

Definition extract_text_from_chunks (chunks : list Document) : list string :=
  map page_content chunks.

Definition get_chunk_metadata (chunks : list Document)
  : list (gmap string MetaVal) :=
  map doc_metadata chunks.

Definition load_file (p : string) : M (Outcome (list Document)) :=
  emit (ELoad p);;
  match fs w !! p with
  | Some e => ret (loaded e)
  | None => ret (Raised ("No such file: " ++ p))
  end.

Definition load_pdf (p : string) : M (Outcome (list Document)) :=
  r ← load_file p;
  match r with
  | Returned documents =>
      print ("Loaded " ++ pretty (length documents) ++ " pages from PDF: " ++ p);;
      ret r
  | Raised _ => ret r
  end.

Definition load_text (p : string) : M (Outcome (list Document)) :=
  r ← load_file p;
  match r with
  | Returned _ => print ("Loaded text file: " ++ p);; ret r
  | Raised _ => ret r
  end.

(** ** Path validation ([common/utils.py]) *)

Definition allowed_extensions : list string := [".pdf"; ".txt"; ".md"].

Definition validate_file_path (p : string) : M bool :=
  if is_empty_str p then print "No file path provided!";; ret false
  else if negb (exists_path p) then print ("File not found: " ++ p);; ret false
  else if negb (isfile p) then
    print ("Path is not a file: " ++ p);; ret false
  else
    let file_ext := lower (splitext_ext p) in
    if bool_decide (file_ext ∈ allowed_extensions) then ret true
    else
      print ("Unsupported file type: " ++ file_ext);;
      print ("Supported types: .pdf, .txt, .md");;
      ret false.

Definition validate_directory_path (dir_path : option string) : M bool :=
  match dir_path with
  | None => ret true
  | Some d =>
      if is_empty_str d then ret true
      else if negb (exists_path d) then
        print ("Directory not found: " ++ d);; ret false
      else if negb (isdir d) then
        print ("Path is not a directory: " ++ d);; ret false
      else ret true
  end.

(** ** [DocumentIndexer] *)

Fixpoint rstrip_slash (s : string) : string :=
  match s with
  | EmptyString => EmptyString
  | String c r =>
      match rstrip_slash r with
      | EmptyString => if Ascii.eqb c "/" then EmptyString else String c EmptyString
      | r' => String c r'
      end
  end.

Definition starts_with_dot (s : string) : bool :=
  match s with String c _ => Ascii.eqb c "." | EmptyString => false end.

(** [glob.glob(os.path.join(d, "*" + ext))]: the entries directly under [d]
    whose name is not hidden and ends with [ext] *)
Definition glob_match (d ext p : string) : bool :=
  match strip_prefix (rstrip_slash d ++ "/") p with
  | Some name =>
      negb (is_empty_str name) && negb (contains_char "/" name)
      && negb (starts_with_dot name) && endswith name ext
  | None => false
  end.

Definition glob (d ext : string) : list string :=
  List.filter (glob_match d ext) (map fst (map_to_list (fs w))).

(** [DOCUMENT_CONFIG["documents_directory"]] *)
Definition documents_directory : string := "./source_documents".

Definition process_and_index_documents (documents : list Document)
    (fid : string) : M (bool * nat) :=
  chunked_docs ← chunk_documents documents;
  let texts := extract_text_from_chunks chunked_docs in
  let metadatas := get_chunk_metadata chunked_docs in
  chunk_ids ← add_documents texts metadatas fid;
  match chunk_ids with
  | Returned _ => ret (true, length texts)
  | Raised e => print_error ("Error during indexing: " ++ e);; ret (false, 0)
  end.

Definition status_name (s : Status) : string :=
  match s with
  | new => "new" | modified => "modified" | unchanged => "unchanged"
  | not_found => "not_found"
  end.

Definition index_single_file (p : string) (update_tracking : bool)
  : M (bool * nat) :=
  let name := basename p in
  valid ← validate_file_path p;
  if negb valid then ret (false, 0)
  else
    '(is_modified, status) ← is_file_modified p;
    if negb is_modified && bool_decide (status = unchanged) then
      chunks ← get_file_chunk_count p;
      print_info ("⏭️ Skipping unchanged file: " ++ name ++ " ("
                  ++ pretty chunks ++ " chunks)");;
      ret (true, chunks)
    else
      print_section_header ("Indexing File: " ++ name ++ " ["
                            ++ status_name status ++ "]");;
      let fid := generate_file_id p in
      (if bool_decide (status = modified) then
         removed_count ← remove_documents_by_file_id fid;
         print_info ("🗑️ Removed " ++ pretty removed_count ++ " old chunks")
       else ret tt);;
      docs ← (if endswith p ".pdf" then
                 d ← load_pdf p; ret (Some d)
               else if endswith p ".txt" || endswith p ".md" then
                 d ← load_text p; ret (Some d)
               else ret None);
      match docs with
      | None => print_error "Unsupported file type";; ret (false, 0)
      | Some (Raised e) =>
          print_error ("Error loading file: " ++ e);; ret (false, 0)
      | Some (Returned []) =>
          print_error "No content found in file";; ret (false, 0)
      | Some (Returned documents) =>
          '(success, chunks) ← process_and_index_documents documents fid;
          (if success && update_tracking then
             store_file_metadata p chunks;;
             print_success ("✅ Indexed " ++ name ++ ": " ++ pretty chunks
                            ++ " chunks")
           else ret tt);;
          ret (success, chunks)
      end.

(** The events of a skipped file: the record is read twice, the file is
    hashed once, one line is printed; no store is written. *)
Definition skip_events (p : string) (chunks : nat) : list Event :=
  [EMetaGet (generate_file_id p); ECompare "mtime"; ECompare "size"; EHash p;
   ECompare "content_hash"; EMetaGet (generate_file_id p);
   EPrint Info ("⏭️ Skipping unchanged file: " ++ basename p ++ " ("
                ++ pretty chunks ++ " chunks)")].

Fixpoint process_files (files_to_process : list string) (total_chunks : nat)
  : M nat :=
  match files_to_process with
  | [] => ret total_chunks
  | p :: rest =>
      '(success, chunks) ← index_single_file p false;
      process_files rest
        (if (success : bool) then total_chunks + chunks else total_chunks)
  end.

Definition update_tracking_loop (files_to_process : list string)
    (file_status : list (string * Status)) : M unit :=
  for_each files_to_process (fun p =>
    if bool_decide (p ∈ map fst file_status) then
      chunks ← get_file_chunk_count p;
      store_file_metadata p chunks;; ret tt
    else ret tt).

Definition with_status (s : Status) (file_status : list (string * Status))
  : list string :=
  map fst (List.filter (fun x => bool_decide (snd x = s)) file_status).

Definition index_documents_from_directory (documents_path : option string)
    (force_reindex : bool) : M bool :=
  print_section_header "Starting Incremental Document Indexing";;
  valid ← validate_directory_path documents_path;
  if negb valid then ret false
  else
    let documents_path :=
      match documents_path with
      | Some d => if is_empty_str d then documents_directory else d
      | None => documents_directory
      end in
    let all_files :=
      (glob documents_path ".pdf" ++ glob documents_path ".txt"
       ++ glob documents_path ".md")%list in
    match all_files with
    | [] => print_error "No documents found to index!";; ret false
    | _ =>
        print_info ("Found " ++ pretty (length all_files) ++ " files to process");;
        file_status ← get_modified_files all_files;
        let new_files := with_status new file_status in
        let modified_files := with_status modified file_status in
        let unchanged_files := with_status unchanged file_status in
        print_info ("📄 New files: " ++ pretty (length new_files));;
        print_info ("🔄 Modified files: " ++ pretty (length modified_files));;
        print_info ("✅ Unchanged files: " ++ pretty (length unchanged_files));;
        files_to_process ←
          (if force_reindex then
             print_info "🔄 Force reindex: processing all files";;
             ret all_files
           else
             (match unchanged_files with
              | [] => ret tt
              | _ => print_info ("⏭️ Skipping "
                                 ++ pretty (length unchanged_files)
                                 ++ " unchanged files")
              end);;
             ret (new_files ++ modified_files)%list);
        match files_to_process with
        | [] =>
            print_success "✅ All files are up to date, nothing to index!";;
            ret true
        | _ =>
            total_chunks ← process_files files_to_process 0;
            update_tracking_loop files_to_process file_status;;
            deleted_files ← cleanup_deleted_files all_files;
            (match deleted_files with
             | [] => ret tt
             | _ => print_info ("🗑️ Cleaned up " ++ pretty (length deleted_files)
                                ++ " deleted files")
             end);;
            print_success ("✅ Indexing complete! Processed "
                           ++ pretty (length files_to_process) ++ " files, "
                           ++ pretty total_chunks ++ " chunks");;
            ret true
        end
    end.

End Indexer.

(** ** Concrete collaborators and worlds

    The general theorems hold for every [abspath], digest and splitter.  The
    runs below fix simple ones: paths that are already absolute, a polynomial
    digest, and a splitter that cuts a text into pieces of [k] characters. *)

Definition abspath_id (p : string) : string := p.

Fixpoint poly_digest_from (acc : N) (s : string) : N :=
  match s with
  | EmptyString => acc
  | String c r => poly_digest_from ((acc * 257 + N_of_ascii c + 1) mod 2 ^ 128)%N r
  end.

Definition poly_digest (s : string) : N := poly_digest_from 7 s.

Fixpoint pieces (fuel k : nat) (s : string) : list string :=
  match fuel with
  | O => []
  | S fuel' =>
      if is_empty_str s then []
      else substring 0 k s
           :: pieces fuel' k (substring k (String.length s - k) s)
  end.

Definition fixed_splitter (k : nat) (documents : list Document)
  : list Document :=
  concat (map (fun d =>
                 map (fun t => mkDocument t (doc_metadata d))
                   (pieces (String.length (page_content d)) k (page_content d)))
            documents).

Definition empty_store : St := mkSt ∅ [] 0 [].

Definition text_document (p content : string) : Document :=
  mkDocument content {[ "source" := MStr p ]}.

(** A readable text file whose loader yields its content as one document *)
Definition text_file (p content : string) (mtime : Z) : FileEntry :=
  mkFileEntry RegularFile (Z.of_nat (String.length content)) mtime
    (Some content) (Returned [text_document p content]).

Definition directory_entry : FileEntry :=
  mkFileEntry Directory 4096 0 None (Raised "Is a directory").

Definition notes_txt : string := "/docs/notes.txt".
Definition guide_md : string := "/docs/guide.md".

Definition notes_content : string := "alpha beta gamma delta epsilon".

(** [/docs] holds the single file [notes.txt] *)
Definition world_notes : World :=
  mkWorld
    (<[notes_txt := text_file notes_txt notes_content 100]>
       {[ "/docs" := directory_entry ]})
    1000 None None.

Definition run_dir (w : World) (force : bool) (s : St) : bool * St :=
  index_documents_from_directory abspath_id poly_digest (fixed_splitter 12) w
    (Some "/docs") force s.

Definition run_file (w : World) (p : string) (s : St) : (bool * nat) * St :=
  index_single_file abspath_id poly_digest (fixed_splitter 12) w p true s.

(** Whether the event [e] is in the trace of [s] *)
Definition happened (e : Event) (s : St) : bool :=
  bool_decide (e ∈ trace s).

Definition notes_id : string := generate_file_id abspath_id poly_digest notes_txt.
Definition guide_id : string := generate_file_id abspath_id poly_digest guide_md.

(** The record [index_single_file] stores for [notes.txt] in [world_notes] *)
Definition notes_record : Metadata :=
  mkMetadata notes_id notes_txt "notes.txt" 30 100 ".txt" 1000
    (Some (hexdigest (poly_digest notes_content))) (Some 3).

Definition forget_trace (s : St) : St :=
  mkSt (meta s) (vectors s) (next_uid s) [].

(** The stores after [notes.txt] was indexed on its own *)
Definition tracked_notes : St :=
  forget_trace (snd (run_file world_notes notes_txt empty_store)).

Definition edited_content : string := "alpha beta gamma delta epsilon zeta eta".

(** [notes.txt] was rewritten: other content, other size, later mtime *)
Definition world_notes_edited : World :=
  mkWorld
    (<[notes_txt := text_file notes_txt edited_content 200]>
       {[ "/docs" := directory_entry ]})
    2000 None None.



(** [notes.txt] was rewritten and its loader raises on the new content *)
Definition garbled_entry : FileEntry :=
  mkFileEntry RegularFile 39 200 (Some edited_content)
    (Raised "'utf-8' codec can't decode byte 0xff").

Definition world_notes_garbled : World :=
  mkWorld (<[notes_txt := garbled_entry]> {[ "/docs" := directory_entry ]})
    2000 None None.

(** [notes.txt] can be hashed but its loader raises; [guide.md] is sound *)
Definition broken_entry : FileEntry :=
  mkFileEntry RegularFile 30 100 (Some notes_content)
    (Raised "'utf-8' codec can't decode byte 0xff").

Definition world_broken : World :=
  mkWorld
    (<[guide_md := text_file guide_md "one two three" 300]>
       (<[notes_txt := broken_entry]> {[ "/docs" := directory_entry ]}))
    1000 None None.

(** The metadata collection cannot be read *)
Definition world_store_down : World :=
  mkWorld (fs world_notes) 1000 (Some "database is locked") None.

(** [notes.txt] is gone from [/docs], [guide.md] has appeared *)
Definition world_guide_only : World :=
  mkWorld
    (<[guide_md := text_file guide_md "one two three" 300]>
       {[ "/docs" := directory_entry ]})
    3000 None None.

(** [/docs] holds [notes.txt] and [guide.md] *)
Definition world_both : World :=
  mkWorld
    (<[guide_md := text_file guide_md "one two three" 300]> (fs world_notes))
    3000 None None.

(** The stores after both files were indexed one by one *)
Definition tracked_both : St :=
  forget_trace
    (snd (run_file world_both guide_md
            (snd (run_file world_both notes_txt empty_store)))).

(** ** [RAGChain] ([search/rag_chain.py]) *)

(** An entry of the list built by [similarity_search]; [generate_response]
    reads its text and, when present, its metadata. *)
Record Retrieved := mkRetrieved {
  content : string;
  metadata : option (gmap string MetaVal)
}.

(** The keyword arguments of [client.messages.create].  The temperature is a
    float in the source and is carried as hundredths. *)
Record Request := mkRequest {
  req_model : string;
  req_max_tokens : nat;
  req_temperature : Z;
  req_system : option string;
  req_user : string
}.

Record RAGChain := mkRAGChain {
  model_name : string;
  temperature : Z
}.

(** [str(v)] for a metadata value *)
Definition str_of_val (v : MetaVal) : string :=
  match v with
  | MStr s => s
  | MInt z => pretty z
  end.

(** [PROMPTS["context_format"].format(index, source, content)] *)
Definition context_format (index : nat) (source doc_content : string) : string :=
  "[" ++ pretty index ++ "] " ++ source ++ ":" ++ nl ++ doc_content ++ nl.

Fixpoint context_parts (i : nat) (retrieved_docs : list Retrieved)
  : list string :=
  match retrieved_docs with
  | [] => []
  | doc :: rest =>
      let md := default ∅ (metadata doc) in
      let source :=
        match md !! "source" with
        | Some v => str_of_val v
        | None => "Unknown source"
        end in
      context_format i source (content doc) :: context_parts (S i) rest
  end.

(** [sep.join(parts)] *)
Fixpoint join (sep : string) (parts : list string) : string :=
  match parts with
  | [] => EmptyString
  | [x] => x
  | x :: rest => x ++ sep ++ join sep rest
  end.

Definition format_context (retrieved_docs : list Retrieved) : string :=
  join nl (context_parts 1 retrieved_docs).

(** The ASCII characters [str.split()] separates words at; on a text with
    characters outside ASCII, [str.split()] also separates at the white space
    of Unicode, which this test does not see. *)
Definition is_space (c : ascii) : bool :=
  let n := nat_of_ascii c in
  ((9 <=? n) && (n <=? 13) || (28 <=? n) && (n <=? 32))%nat.

Fixpoint count_words_from (in_word : bool) (s : string) : nat :=
  match s with
  | EmptyString => 0
  | String c r =>
      if is_space c then count_words_from false r
      else (if in_word then 0 else 1) + count_words_from true r
  end.

(** [len(s.split())] *)
Definition word_count (s : string) : nat := count_words_from false s.

Definition system_prompt : string :=
  "Answer using the provided context. Say " ++ String (ascii_of_nat 34) "I don't know"
  ++ String (ascii_of_nat 34) " if the context doesn't contain the answer. Be concise.".

(** [PROMPTS["human_prompt"].format(context, question)] *)
Definition human_prompt (context question : string) : string :=
  "Context:" ++ nl ++ context ++ nl ++ nl ++ "Q: " ++ question.

Section Generation.

(** The language-model client: the text blocks of the message it answers
    with, or the exception it raises. *)
Variable messages_create : Request -> Outcome (list string).

Definition response_request (chain : RAGChain) (question : string)
    (retrieved_docs : list Retrieved) (is_complex : bool) : Request :=
  let context := format_context retrieved_docs in
  let estimated_tokens := word_count context + word_count question in
  let max_tokens :=
    if is_complex || (300 <? estimated_tokens)%nat then 1200 else 800 in
  mkRequest (model_name chain) max_tokens (temperature chain)
    (Some system_prompt) (human_prompt context question).

(** The [try] block returns [message.content[0].text]; an empty content list
    raises [IndexError] there, which the handler catches like any other
    exception. *)
Definition generate_response (chain : RAGChain) (question : string)
    (retrieved_docs : list Retrieved) (is_complex : bool) : string :=
  match messages_create
          (response_request chain question retrieved_docs is_complex) with
  | Returned (text :: _) => text
  | Returned [] => "Error generating response: list index out of range"
  | Raised e => "Error generating response: " ++ e
  end.

End Generation.

(** A client without a connection *)
Definition offline_client (_ : Request) : Outcome (list string) :=
  Raised "Connection error.".

Definition haiku_chain : RAGChain := mkRAGChain "claude-3-haiku-20240307" 10.

(** ** The rest of [FileTracker], [VectorStore] and [DocumentIndexer] *)

(** [get_tracking_stats] returns a dictionary with these four keys *)
Record TrackingStats := mkTrackingStats {
  total_files : nat;
  total_size : Z;
  total_chunks : nat;
  extensions : list (string * nat)
}.

(** [d.get(k, 0)] on an insertion-ordered dictionary *)
Fixpoint dict_get (k : string) (d : list (string * nat)) : nat :=
  match d with
  | [] => 0
  | (k', v) :: r => if String.eqb k k' then v else dict_get k r
  end.

(** The loop [extensions[ext] = extensions.get(ext, 0) + 1] *)
Fixpoint count_extensions (tracked_files : list Metadata)
    (acc : list (string * nat)) : list (string * nat) :=
  match tracked_files with
  | [] => acc
  | file_data :: rest =>
      let ext := extension file_data in
      count_extensions rest (dict_set ext (dict_get ext acc + 1) acc)
  end.

(** [get_collection_info] returns a dictionary; the two fixed strings of it
    are left out *)
Record CollectionInfo := mkCollectionInfo {
  info_count : nat;
  unique_files : nat
}.

Section Maintenance.

Variable abspath : string -> string.
Variable md5 : string -> N.
Variable w : World.

Definition remove_file_metadata (p : string) : M bool :=
  let fid := generate_file_id abspath md5 p in
  r ← meta_delete w fid;
  match r with
  | Returned _ => print_info ("Removed metadata for: " ++ basename p);; ret true
  | Raised e => print_warning ("Error removing file metadata: " ++ e);; ret false
  end.

Definition get_tracking_stats : M TrackingStats :=
  tracked_files ← get_all_tracked_files w;
  ret (mkTrackingStats
         (length tracked_files)
         (foldr Z.add 0%Z (map size tracked_files))
         (foldr Nat.add 0 (map (fun f => default 0 (chunk_count f)) tracked_files))
         (count_extensions tracked_files [])).

(** [clear_collection]: the collection is dropped and created again through
    the client, which raises like the collection does when the store is
    faulty; the exception is not caught. *)
Definition clear_collection : M (Outcome unit) :=
  match vec_fault w with
  | Some msg => ret (Raised msg)
  | None =>
      set_vectors [];;
      print "Cleared collection: documents";;
      ret (Returned tt)
  end.

(** [clear_index], given what [create_collection] answers once the metadata
    collection is dropped.  The [try] block makes two calls:
    [delete_collection], which raises when the metadata store is faulty and
    otherwise drops every record, and then [create_collection]; whichever
    raises, the handler prints the warning and the function goes on. *)
Definition clear_index_with (recreate : Outcome unit) : M (Outcome bool) :=
  r ← clear_collection;
  match r with
  | Raised e => ret (Raised e)
  | Returned _ =>
      match meta_fault w with
      | Some e => print_warning ("Error clearing file tracking: " ++ e)
      | None =>
          set_meta ∅;;
          match recreate with
          | Returned _ => print_info "🗑️ Cleared file tracking data"
          | Raised e => print_warning ("Error clearing file tracking: " ++ e)
          end
      end;;
      print_success "✅ Cleared all indexed documents!";;
      ret (Returned true)
  end.

(** [clear_index] on a metadata store that creates the collection whenever
    it could drop it *)
Definition clear_index : M (Outcome bool) := clear_index_with (Returned tt).

(** [get_collection_info]: [count()] is outside the [try] and raises to the
    caller; the sample of at most 100 entries is inside it. *)
Definition get_collection_info : M (Outcome CollectionInfo) :=
  match vec_fault w with
  | Some msg => ret (Raised msg)
  | None =>
      v ← get_vectors;
      let n := length v in
      let sample_results := take (Nat.min 100 n) v in
      let file_ids :=
        remove_dups (omap (fun c => chunk_meta c !! "file_id") sample_results) in
      ret (Returned (mkCollectionInfo n (length file_ids)))
  end.

(** [collection.get(where={"file_id": file_id},
    include=['documents', 'metadatas', 'ids'])]: turned down like the query
    of [remove_documents_by_file_id], for the same item. *)
Definition vec_get_documents (fid : string) : M (Outcome (list Chunk)) :=
  emit (EVecGet fid);;
  match vec_fault w with
  | Some msg => ret (Raised msg)
  | None => ret (Raised include_refused)
  end.

(** [get_documents_by_file_id] *)
Definition get_documents_by_file_id (fid : string) : M (list Chunk) :=
  r ← vec_get_documents fid;
  match r with
  | Returned l => ret l
  | Raised e =>
      print_warning ("Error getting documents by file_id: " ++ e);; ret []
  end.

End Maintenance.

(** ** More of [common/utils.py] *)

(** [s[:n]] for an index of either sign.  [len] and the slice count
    characters where [String.length] and [substring] count bytes: the two
    agree on ASCII text, for which the statements about them are made. *)
Definition slice_to (n : Z) (s : string) : string :=
  if (0 <=? n)%Z then substring 0 (Z.to_nat n) s
  else substring 0 (String.length s - Z.to_nat (- n)) s.

Definition truncate_text (text : string) (max_length : nat) (suffix : string)
  : string :=
  if (String.length text <=? max_length)%nat then text
  else slice_to (Z.of_nat max_length - Z.of_nat (String.length suffix)) text
       ++ suffix.

(** The characters the first pattern replaces: less-than, greater-than,
    colon, double quote, slash, backslash, bar, question mark and star *)
Definition invalid_filename_char (c : ascii) : bool :=
  bool_decide (nat_of_ascii c ∈ [60; 62; 58; 34; 47; 92; 124; 63; 42]).

Definition underscore : ascii := ascii_of_nat 95.

(** The first [re.sub]: each of these characters becomes an underscore *)
Fixpoint replace_invalid (s : string) : string :=
  match s with
  | EmptyString => EmptyString
  | String c r =>
      String (if invalid_filename_char c then underscore else c)
        (replace_invalid r)
  end.

(** The second [re.sub]: a run of underscores becomes one underscore *)
Fixpoint collapse_underscores (s : string) : string :=
  match s with
  | EmptyString => EmptyString
  | String c r =>
      if Ascii.eqb c underscore then
        match r with
        | String c' _ =>
            if Ascii.eqb c' underscore then collapse_underscores r
            else String c (collapse_underscores r)
        | EmptyString => String c EmptyString
        end
      else String c (collapse_underscores r)
  end.

Definition strip_char (c : ascii) : bool :=
  Ascii.eqb c underscore || Ascii.eqb c " ".

Fixpoint lstrip (s : string) : string :=
  match s with
  | EmptyString => EmptyString
  | String c r => if strip_char c then lstrip r else s
  end.

Fixpoint rstrip (s : string) : string :=
  match s with
  | EmptyString => EmptyString
  | String c r =>
      match rstrip r with
      | EmptyString => if strip_char c then EmptyString else String c EmptyString
      | r' => String c r'
      end
  end.

(** [s.strip('_ ')] *)
Definition strip_underscores_spaces (s : string) : string := rstrip (lstrip s).

Definition sanitize_filename (filename : string) : string :=
  let sanitized :=
    strip_underscores_spaces (collapse_underscores (replace_invalid filename)) in
  if is_empty_str sanitized then "untitled" else sanitized.

(** ** Expected values used in the statements *)

(** The dictionary [store_file_metadata] writes for the entry [e] found at
    [p], with [n] as its chunk count *)
Definition stored_record (abspath : string -> string) (md5 : string -> N)
    (w : World) (p : string) (e : FileEntry) (n : nat) : Metadata :=
  mkMetadata (generate_file_id abspath md5 p) (abspath p) (basename p)
    (st_size e) (st_mtime e) (lower (splitext_ext p)) (clock w)
    (Some (hash_of_entry md5 e)) (Some n).

(** [s] with the metadata collection replaced and events appended *)
Definition with_meta (s : St) (m : gmap string Metadata) (es : list Event)
  : St :=
  mkSt m (vectors s) (next_uid s) (trace s ++ es).

(** ** Invariants of the stores *)

(** A computation keeps a property of the two collections and the id supply
    when the property holds after every run that starts where it holds. *)
Definition keeps (P : gmap string Metadata -> list Chunk -> nat -> Prop)
    {A} (c : M A) : Prop :=
  forall s, P (meta s) (vectors s) (next_uid s) ->
    let s' := snd (c s) in P (meta s') (vectors s') (next_uid s').

(** The ids of the document collection are pairwise distinct and were all
    issued already *)
Definition uids_fresh (v : list Chunk) (n : nat) : Prop :=
  NoDup (map chunk_uid v) /\ Forall (fun c => chunk_uid c < n) v.

(** Properties that do not look at the metadata collection, and properties
    that look at nothing else *)
Definition meta_blind (P : gmap string Metadata -> list Chunk -> nat -> Prop)
  : Prop :=
  forall m m' v n, P m v n -> P m' v n.

Definition docs_blind (P : gmap string Metadata -> list Chunk -> nat -> Prop)
  : Prop :=
  forall m v v' n n', P m v n -> P m v' n'.

(** The entries [add_documents] hands to the collection when the next fresh
    id is [start] *)
Definition new_chunks (start : nat) (documents : list string)
    (metadatas : list (gmap string MetaVal)) (fid : string) : list Chunk :=
  map (fun x => mkChunk (fst (fst x)) (snd (fst x)) (snd x))
    (zip (zip (seq start (length documents)) documents)
       (if is_empty_str fid then metadatas
        else map (fun md => <["file_id" := MStr fid]> md) metadatas)).

(** ** Reasoning about runs *)

(** [wp c s Q]: the run of [c] from [s] ends with a result and a state that
    satisfy [Q] *)
Definition wp {A} (c : M A) (s : St) (Q : A -> St -> Prop) : Prop :=
  Q (fst (c s)) (snd (c s)).

(** Two states with the same collections and the same id supply; their
    traces may differ *)
Definition same_stores (s s' : St) : Prop :=
  meta s' = meta s /\ vectors s' = vectors s /\ next_uid s' = next_uid s.

(** The document collection cannot be reached *)
Definition world_vectors_down : World :=
  mkWorld (fs world_notes) 1000 None (Some "disk I/O error").

(** The candidates of a directory pass: the supported files directly under
    the given directory, or under the default one *)
Definition candidate_files (w : World) (documents_path : option string)
  : list string :=
  let d :=
    match documents_path with
    | Some d => if is_empty_str d then documents_directory else d
    | None => documents_directory
    end in
  (glob w d ".pdf" ++ glob w d ".txt" ++ glob w d ".md")%list.

(** ** Predicates on strings used in the statements *)

(** Every character of [s] passes the test [f] *)
Fixpoint string_all (f : ascii -> bool) (s : string) : bool :=
  match s with
  | EmptyString => true
  | String c r => f c && string_all f r
  end.

(** A text of ASCII characters only.  On such a text [len] is the number of
    bytes and [str.split()] separates exactly at the characters of
    [is_space]; a text with other characters is longer in bytes than in
    characters and may hold white space that [is_space] does not know. *)
Definition is_ascii (c : ascii) : bool := (nat_of_ascii c <? 128)%nat.

Definition ascii_text (s : string) : bool := string_all is_ascii s.

(** No two underscores in a row *)
Fixpoint no_double_underscore (s : string) : bool :=
  match s with
  | String a ((String b _) as r) =>
      negb (Ascii.eqb a underscore && Ascii.eqb b underscore)
      && no_double_underscore r
  | _ => true
  end.

(** The first, resp. last, character is neither an underscore nor a space *)
Definition starts_clean (s : string) : bool :=
  match s with
  | String c _ => negb (strip_char c)
  | EmptyString => true
  end.

Fixpoint ends_clean (s : string) : bool :=
  match s with
  | EmptyString => true
  | String c EmptyString => negb (strip_char c)
  | String _ r => ends_clean r
  end.

Definition head_is_underscore (s : string) : bool :=
  match s with String c _ => Ascii.eqb c underscore | EmptyString => false end.

(** [/docs] holds a report whose extension is in capitals *)
Definition report_pdf : string := "/docs/REPORT.PDF".

Definition world_capitals : World :=
  mkWorld
    (<[report_pdf := text_file report_pdf "quarterly figures" 400]>
       {[ "/docs" := directory_entry ]})
    4000 None None.


(** ** The size estimate of [generate_response] *)

(** The label [format_context] prints for a retrieved entry *)
Definition source_of (doc : Retrieved) : string :=
  match default ∅ (metadata doc) !! "source" with
  | Some v => str_of_val v
  | None => "Unknown source"
  end.

(** The words an entry adds to the context: its number, its label followed
    by a colon, and its text *)
Definition doc_words (doc : Retrieved) : nat :=
  1 + word_count (source_of doc ++ ":") + word_count (content doc).

Definition solid (c : ascii) : bool := negb (is_space c).

(** * Properties *)

Lemma hex_digits_length n d acc :
  String.length (hex_digits n d acc) = (n + String.length acc)%nat.
Proof.
  revert d acc. induction n as [|n IH]; intros d acc; simpl; [done|].
  rewrite IH. simpl. lia.
Qed.

Lemma hexdigest_length d : String.length (hexdigest d) = 32%nat.
Proof. unfold hexdigest. rewrite hex_digits_length. reflexivity. Qed.


Global Arguments hexdigest : simpl never.
Global Arguments generate_file_id : simpl never.

(** Closes a goal that equates two runs differing only in how the trace is
    bracketed. *)
Ltac same_state :=
  unfold print, print_info, print_success, print_warning, print_error, emit,
    mbind, M_bind, bind, ret, log_events;
  cbn; rewrite <- ?app_assoc; reflexivity.

Section Classification.

Variable abspath : string -> string.
Variable md5 : string -> N.
Variable w : World.

Local Abbreviation fid_of p := (generate_file_id abspath md5 p).
Local Abbreviation classify := (is_file_modified abspath md5 w).

Lemma is_file_modified_missing p s :
  fs w !! p = None -> classify p s = ((false, not_found), s).
Proof.
  intros H. unfold is_file_modified, get_file_metadata.
  unfold mbind, M_bind, bind. rewrite H. reflexivity.
Qed.

Lemma is_file_modified_fault p e msg s :
  fs w !! p = Some e -> meta_fault w = Some msg ->
  classify p s =
    ((true, new),
     log_events s [EMetaGet (fid_of p);
                   EPrint Warning ("Error checking file metadata: " ++ msg)]).
Proof.
  intros H F. unfold is_file_modified, get_file_metadata, meta_get, meta_call.
  unfold mbind, M_bind, bind. rewrite H, F. cbn.
  unfold log_events. rewrite <- app_assoc. reflexivity.
Qed.

Lemma is_file_modified_untracked p e s :
  fs w !! p = Some e -> meta_fault w = None -> meta s !! fid_of p = None ->
  classify p s = ((true, new), log_events s [EMetaGet (fid_of p)]).
Proof.
  intros H F L. unfold is_file_modified, get_file_metadata, meta_get, meta_call.
  unfold mbind, M_bind, bind. rewrite H, F. cbn. rewrite L. reflexivity.
Qed.

Lemma is_file_modified_tracked p e sm s :
  fs w !! p = Some e -> meta_fault w = None -> meta s !! fid_of p = Some sm ->
  classify p s = tracked_answer abspath md5 p e sm s.
Proof.
  intros H F L. unfold is_file_modified, get_file_metadata, meta_get, meta_call.
  unfold mbind, M_bind, bind, tracked_answer. rewrite H, F. cbn. rewrite L.
  cbn. unfold get_file_hash, mbind, M_bind, bind. cbn.
  destruct (st_mtime e =? mtime sm)%Z; cbn; [|same_state].
  destruct (st_size e =? size sm)%Z; cbn; [|same_state].
  rewrite H. cbn.
  destruct (bool_decide (Some (hash_of_entry md5 e) = content_hash sm)); cbn;
    same_state.
Qed.



(** The first component of a classification depends on the stores only
    through the record of the file. *)
Lemma is_file_modified_result p s s' :
  meta s' = meta s -> fst (classify p s') = fst (classify p s).
Proof.
  intros E. destruct (fs w !! p) as [e|] eqn:H.
  - destruct (meta_fault w) as [msg|] eqn:F.
    + by rewrite !(is_file_modified_fault p e msg).
    + destruct (meta s !! fid_of p) as [sm|] eqn:L.
      * rewrite (is_file_modified_tracked p e sm s), (is_file_modified_tracked p e sm s');
          [|done|done|by rewrite E|done..].
        unfold tracked_answer.
        by repeat (case_match; simpl).
      * rewrite (is_file_modified_untracked p e s), (is_file_modified_untracked p e s');
          [done|done|done|by rewrite E|done..].
  - by rewrite !is_file_modified_missing.
Qed.

(** A classification [unchanged] comes from a healthy store, an existing
    path and a record that agrees with the file on all three signals. *)
Lemma is_file_modified_unchanged_inv p s :
  fst (classify p s) = (false, unchanged) ->
  exists e sm,
    fs w !! p = Some e /\ meta_fault w = None /\
    meta s !! fid_of p = Some sm /\
    st_mtime e = mtime sm /\ st_size e = size sm /\
    Some (hash_of_entry md5 e) = content_hash sm.
Proof.
  intros R. destruct (fs w !! p) as [e|] eqn:H;
    [|by rewrite is_file_modified_missing in R].
  destruct (meta_fault w) as [msg|] eqn:F;
    [by rewrite (is_file_modified_fault p e msg) in R|].
  destruct (meta s !! fid_of p) as [sm|] eqn:L;
    [|by rewrite (is_file_modified_untracked p e) in R].
  rewrite (is_file_modified_tracked p e sm) in R by done.
  unfold tracked_answer in R. exists e, sm.
  destruct (st_mtime e =? mtime sm)%Z eqn:Em; simpl in R; [|done].
  destruct (st_size e =? size sm)%Z eqn:Es; simpl in R; [|done].
  case_bool_decide; simpl in R; [|done].
  repeat split; try done; lia.
Qed.

(** ** Fingerprinting an unreadable file *)


(** ** The order of the checks *)

(** C6, amended. For an existing path and a healthy metadata store the
    classifier first looks the record up and answers [new] when there is
    none; otherwise it compares the modification time, then the size, and
    only when both agree does it hash the content and compare the digests.
    It stops at the first difference, so the file is hashed exactly when
    modification time and size both match. *)
Theorem is_file_modified_check_order p e s :
  fs w !! p = Some e -> meta_fault w = None ->
  let fid := fid_of p in
  (meta s !! fid = None ->
   classify p s = ((true, new), log_events s [EMetaGet fid])) /\
  (forall sm, meta s !! fid = Some sm ->
     (st_mtime e <> mtime sm ->
      classify p s =
        ((true, modified), log_events s [EMetaGet fid; ECompare "mtime"])) /\
     (st_mtime e = mtime sm -> st_size e <> size sm ->
      classify p s =
        ((true, modified),
         log_events s [EMetaGet fid; ECompare "mtime"; ECompare "size"])) /\
     (st_mtime e = mtime sm -> st_size e = size sm ->
      classify p s =
        (if bool_decide (Some (hash_of_entry md5 e) = content_hash sm)
         then (false, unchanged) else (true, modified),
         log_events s [EMetaGet fid; ECompare "mtime"; ECompare "size";
                       EHash p; ECompare "content_hash"]))).
Proof.
  intros H F fid. split.
  - intros L. by apply (is_file_modified_untracked p e).
  - intros sm L. rewrite (is_file_modified_tracked p e sm s H F L).
    unfold tracked_answer. fold fid. repeat split.
    + intros N. apply Z.eqb_neq in N. by rewrite N.
    + intros E N. apply Z.eqb_eq in E. apply Z.eqb_neq in N. by rewrite E, N.
    + intros E1 E2. apply Z.eqb_eq in E1, E2. by rewrite E1, E2.
Qed.

(** ** Soundness of change detection *)

(** C7. For an existing file with a record in a healthy store the answer is
    [unchanged] exactly when content hash, size and modification time all
    equal the recorded values; when size and modification time match but the
    hash differs the answer is [modified]; there is no third answer. *)
Theorem is_file_modified_unchanged_iff p e sm s :
  fs w !! p = Some e -> meta_fault w = None ->
  meta s !! fid_of p = Some sm ->
  (fst (classify p s) = (false, unchanged) <->
   Some (hash_of_entry md5 e) = content_hash sm /\
   st_size e = size sm /\ st_mtime e = mtime sm) /\
  (st_size e = size sm -> st_mtime e = mtime sm ->
   Some (hash_of_entry md5 e) <> content_hash sm ->
   fst (classify p s) = (true, modified)) /\
  (fst (classify p s) = (false, unchanged) \/
   fst (classify p s) = (true, modified)).
Proof.
  intros H F L. rewrite (is_file_modified_tracked p e sm s H F L).
  unfold tracked_answer.
  destruct (Z.eqb_spec (st_mtime e) (mtime sm)) as [Em|Em]; simpl.
  2: { split; [split; [intros [=] | intros (_ & _ & ?); done]|].
       split; [done | by right]. }
  destruct (Z.eqb_spec (st_size e) (size sm)) as [Es|Es]; simpl.
  2: { split; [split; [intros [=] | intros (_ & ? & _); done]|].
       split; [done | by right]. }
  case_bool_decide as Eh; simpl.
  - split; [done|]. split; [done | by left].
  - split; [split; [intros [=] | intros (? & _ & _); done]|].
    split; [done | by right].
Qed.

(** ** A failing metadata store *)

(** C9. When the lookup in the metadata store raises while an existing file
    is classified, the classifier returns normally with the answer [new],
    prints a warning that carries the message of the error, and leaves both
    collections as they were. *)
Theorem is_file_modified_store_error p e msg s :
  fs w !! p = Some e -> meta_fault w = Some msg ->
  classify p s =
    ((true, new),
     log_events s
       [EMetaGet (fid_of p);
        EPrint Warning ("Error checking file metadata: " ++ msg)]).
Proof. intros H F. by apply (is_file_modified_fault p e). Qed.

End Classification.

(** ** The single-file entry point *)

Lemma bind_run {A B} (c : M A) (k : A -> M B) s a s' :
  c s = (a, s') -> (c ≫= k) s = k a s'.
Proof. intros H. unfold mbind, M_bind, bind. by rewrite H. Qed.

Section SingleFile.

Variable abspath : string -> string.
Variable md5 : string -> N.
Variable split_documents : list Document -> list Document.
Variable w : World.

Local Abbreviation fid_of p := (generate_file_id abspath md5 p).
Local Abbreviation classify := (is_file_modified abspath md5 w).
Local Abbreviation index_file :=
  (index_single_file abspath md5 split_documents w).

(** Validation reads the file system only: it succeeds silently or not at
    all, and its verdict is the same in every state. *)
Lemma validate_file_path_true p s :
  fst (validate_file_path w p s) = true -> validate_file_path w p s = (true, s).
Proof.
  unfold validate_file_path.
  repeat (case_match; try (simpl; done)).
Qed.

Lemma validate_file_path_state p s s' :
  fst (validate_file_path w p s') = fst (validate_file_path w p s).
Proof.
  unfold validate_file_path.
  repeat (case_match; try (simpl; done)).
Qed.

Lemma get_file_chunk_count_tracked p sm s :
  meta_fault w = None -> meta s !! fid_of p = Some sm ->
  get_file_chunk_count abspath md5 w p s =
    (default 0 (chunk_count sm), log_events s [EMetaGet (fid_of p)]).
Proof.
  intros F L. unfold get_file_chunk_count, meta_get, meta_call.
  unfold mbind, M_bind, bind. rewrite F. cbn. rewrite L. reflexivity.
Qed.

Lemma index_single_file_skip p update_tracking s :
  fst (validate_file_path w p s) = true ->
  fst (classify p s) = (false, unchanged) ->
  exists sm,
    meta s !! fid_of p = Some sm /\
    index_file p update_tracking s =
      ((true, default 0 (chunk_count sm)),
       log_events s (skip_events abspath md5 p (default 0 (chunk_count sm)))).
Proof.
  intros V R.
  destruct (is_file_modified_unchanged_inv abspath md5 w p s R)
    as (e & sm & H & F & L & Em & Es & Eh).
  exists sm. split; [done|].
  unfold index_single_file.
  rewrite (bind_run _ _ s true s (validate_file_path_true p s V)). simpl.
  assert (classify p s =
          ((false, unchanged),
           log_events s [EMetaGet (fid_of p); ECompare "mtime";
                         ECompare "size"; EHash p; ECompare "content_hash"]))
    as C.
  { rewrite (is_file_modified_tracked abspath md5 w p e sm s H F L).
    unfold tracked_answer.
    rewrite Em, Es, !Z.eqb_refl. simpl. by rewrite bool_decide_true. }
  rewrite (bind_run _ _ _ _ _ C). simpl.
  erewrite bind_run; [|by apply (get_file_chunk_count_tracked p sm)].
  unfold skip_events. same_state.
Qed.

(** C8. On a valid path that the classifier reports [unchanged],
    [index_single_file] returns success with the chunk count of the record.
    The stores are left exactly as they were: the run only reads the record,
    hashes the file and prints one line.  A second call on the resulting
    state gives the same answer and again changes nothing. *)
Theorem index_single_file_unchanged_idempotent p update_tracking s :
  fst (validate_file_path w p s) = true ->
  fst (classify p s) = (false, unchanged) ->
  exists sm,
    meta s !! fid_of p = Some sm /\
    let n := default 0 (chunk_count sm) in
    let s1 := snd (index_file p update_tracking s) in
    let s2 := snd (index_file p update_tracking s1) in
    index_file p update_tracking s =
      ((true, n), log_events s (skip_events abspath md5 p n)) /\
    fst (index_file p update_tracking s1) = (true, n) /\
    meta s1 = meta s /\ vectors s1 = vectors s /\ next_uid s1 = next_uid s /\
    meta s2 = meta s /\ vectors s2 = vectors s /\ next_uid s2 = next_uid s.
Proof.
  intros V R.
  destruct (index_single_file_skip p update_tracking s V R) as (sm & L & E).
  exists sm. split; [done|]. intros n s1 s2. subst s2 s1 n. rewrite E.
  cbn [fst snd].
  set (s1 := log_events s _).
  assert (fst (validate_file_path w p s1) = true) as V1
    by (by rewrite (validate_file_path_state p s s1)).
  assert (fst (classify p s1) = (false, unchanged)) as R1
    by (by rewrite (is_file_modified_result abspath md5 w p s s1)).
  destruct (index_single_file_skip p update_tracking s1 V1 R1)
    as (sm1 & L1 & E1).
  assert (sm1 = sm) as -> by (simpl in L1; congruence).
  rewrite E1. cbn [fst snd]. done.
Qed.

End SingleFile.

(** ** Answer generation *)

(** C10. Whatever the question and the retrieved documents, when the call to
    the language model raises, [generate_response] returns a string: the
    text "Error generating response: " followed by the message of the
    exception. *)
Theorem generate_response_degrades messages_create chain question
    retrieved_docs is_complex e :
  messages_create (response_request chain question retrieved_docs is_complex)
    = Raised e ->
  generate_response messages_create chain question retrieved_docs is_complex
    = "Error generating response: " ++ e.
Proof. intros H. unfold generate_response. by rewrite H. Qed.

(** * Runs on concrete worlds *)


Lemma is_file_modified_check_order_witness :
  fs world_notes !! notes_txt = Some (text_file notes_txt notes_content 100) /\
  meta_fault world_notes = None /\
  is_file_modified abspath_id poly_digest world_notes notes_txt tracked_notes =
    ((false, unchanged),
     log_events tracked_notes
       [EMetaGet notes_id; ECompare "mtime"; ECompare "size";
        EHash notes_txt; ECompare "content_hash"]).
Proof.
  assert (fs world_notes !! notes_txt
          = Some (text_file notes_txt notes_content 100)) as H by reflexivity.
  assert (meta_fault world_notes = None) as F by reflexivity.
  split; [exact H|]. split; [exact F|].
  destruct (is_file_modified_check_order abspath_id poly_digest world_notes
              notes_txt _ tracked_notes H F) as [_ T].
  destruct (T notes_record) as (_ & _ & E); [reflexivity|].
  exact (E eq_refl eq_refl).
Defined.

(** C6 as stated fails.  [notes.txt] was rewritten, so both its size and its
    modification time differ from the record.  The source compares the
    modification time and stops; the order of the specification would have
    compared the size. *)
Lemma is_file_modified_compares_mtime_first :
  let run :=
    is_file_modified abspath_id poly_digest world_notes_edited notes_txt
      tracked_notes in
  let spec_run :=
    spec_order_is_file_modified abspath_id poly_digest world_notes_edited
      notes_txt tracked_notes in
  st_size (text_file notes_txt edited_content 200) <> size notes_record /\
  trace (snd run) = [EMetaGet notes_id; ECompare "mtime"] /\
  trace (snd spec_run) = [EMetaGet notes_id; ECompare "size"] /\
  run <> spec_run.
Proof.
  intros run spec_run.
  assert (trace (snd run) = [EMetaGet notes_id; ECompare "mtime"]) as R
    by (vm_compute; reflexivity).
  assert (trace (snd spec_run) = [EMetaGet notes_id; ECompare "size"]) as S
    by (vm_compute; reflexivity).
  split; [intros H; vm_compute in H; discriminate H|].
  split; [exact R|]. split; [exact S|].
  intros E.
  pose proof (eq_trans (eq_sym R)
                (eq_trans (f_equal (fun r => trace (snd r)) E) S)) as D.
  vm_compute in D. discriminate D.
Qed.

Lemma is_file_modified_unchanged_iff_witness :
  fs world_notes !! notes_txt = Some (text_file notes_txt notes_content 100) /\
  meta_fault world_notes = None /\
  meta tracked_notes !! notes_id = Some notes_record /\
  fst (is_file_modified abspath_id poly_digest world_notes notes_txt
         tracked_notes) = (false, unchanged).
Proof.
  assert (fs world_notes !! notes_txt
          = Some (text_file notes_txt notes_content 100)) as H by reflexivity.
  assert (meta_fault world_notes = None) as F by reflexivity.
  assert (meta tracked_notes !! notes_id = Some notes_record) as L
    by reflexivity.
  split; [exact H|]. split; [exact F|]. split; [exact L|].
  destruct (is_file_modified_unchanged_iff abspath_id poly_digest world_notes
              notes_txt _ notes_record tracked_notes H F L) as [[_ U] _].
  apply U. repeat split; reflexivity.
Defined.

Lemma index_single_file_unchanged_idempotent_witness :
  fst (validate_file_path world_notes notes_txt tracked_notes) = true /\
  fst (is_file_modified abspath_id poly_digest world_notes notes_txt
         tracked_notes) = (false, unchanged) /\
  fst (run_file world_notes notes_txt tracked_notes) = (true, 3) /\
  vectors (snd (run_file world_notes notes_txt tracked_notes))
    = vectors tracked_notes /\
  meta (snd (run_file world_notes notes_txt tracked_notes))
    = meta tracked_notes.
Proof.
  assert (fst (validate_file_path world_notes notes_txt tracked_notes) = true)
    as V by (vm_compute; reflexivity).
  assert (fst (is_file_modified abspath_id poly_digest world_notes notes_txt
                 tracked_notes) = (false, unchanged)) as R by (vm_compute; reflexivity).
  split; [exact V|]. split; [exact R|].
  destruct (index_single_file_unchanged_idempotent abspath_id poly_digest
              (fixed_splitter 12) world_notes notes_txt true tracked_notes V R)
    as (sm & L & E & _ & Em & Ev & _).
  assert (sm = notes_record) as ->.
  { vm_compute in L. injection L as <-. vm_compute. reflexivity. }
  unfold run_file. rewrite E. cbn [fst snd log_events vectors meta].
  repeat split; reflexivity.
Defined.

Lemma is_file_modified_store_error_witness :
  fs world_store_down !! notes_txt
    = Some (text_file notes_txt notes_content 100) /\
  meta_fault world_store_down = Some "database is locked" /\
  is_file_modified abspath_id poly_digest world_store_down notes_txt
    tracked_notes =
    ((true, new),
     log_events tracked_notes
       [EMetaGet notes_id;
        EPrint Warning "Error checking file metadata: database is locked"]).
Proof.
  assert (fs world_store_down !! notes_txt
          = Some (text_file notes_txt notes_content 100)) as H by reflexivity.
  assert (meta_fault world_store_down = Some "database is locked") as F
    by reflexivity.
  split; [exact H|]. split; [exact F|].
  exact (is_file_modified_store_error abspath_id poly_digest world_store_down
           notes_txt _ _ tracked_notes H F).
Defined.

Lemma generate_response_degrades_witness :
  offline_client
    (response_request haiku_chain "What is in the notes?"
       [mkRetrieved "alpha beta g" None] false)
    = Raised "Connection error." /\
  generate_response offline_client haiku_chain "What is in the notes?"
    [mkRetrieved "alpha beta g" None] false
    = "Error generating response: Connection error.".
Proof.
  assert (offline_client
            (response_request haiku_chain "What is in the notes?"
               [mkRetrieved "alpha beta g" None] false)
          = Raised "Connection error.") as H by reflexivity.
  split; [exact H|].
  exact (generate_response_degrades offline_client haiku_chain
           "What is in the notes?" [mkRetrieved "alpha beta g" None] false
           "Connection error." H).
Defined.

(** ** Directory passes that leave the stores inconsistent *)

(** C1. [notes.txt] was indexed and has since left [/docs], where
    [guide.md] is new.  The pass deletes the record of [notes.txt] but its
    three chunks stay in the document collection and are counted.  When the
    only file left is unchanged, the pass returns before the clean-up and
    even the record stays. *)
Theorem deleted_file_chunks_survive_pass :
  let s := snd (run_dir world_guide_only false tracked_notes) in
  let s' := snd (run_dir world_guide_only false tracked_both) in
  fs world_guide_only !! notes_txt = None /\
  chunk_count <$> meta tracked_notes !! notes_id = Some (Some 3) /\
  fst (run_dir world_guide_only false tracked_notes) = true /\
  meta s !! notes_id = None /\
  length (chunks_of notes_id s) = 3 /\
  count s = 5 /\
  fst (run_dir world_guide_only false tracked_both) = true /\
  chunk_count <$> meta s' !! notes_id = Some (Some 3) /\
  length (chunks_of notes_id s') = 3 /\
  happened EMetaGetAll s' = false.
Proof. intros s s'. subst s s'. repeat split; vm_compute; reflexivity. Qed.

(** C2. [/docs] holds one new file that is cut into three chunks.  After
    the pass the document collection holds the three chunks and the record
    of the file says [chunk_count = 0]: the pass stores the count it reads
    back from the metadata store, not the one it just produced. *)
Theorem new_file_recorded_with_zero_chunks :
  let s := snd (run_dir world_notes false empty_store) in
  fst (run_dir world_notes false empty_store) = true /\
  length (chunks_of notes_id s) = 3 /\
  chunk_count <$> meta s !! notes_id = Some (Some 0) /\
  fst (run_file world_notes notes_txt empty_store) = (true, 3) /\
  chunk_count <$> meta (snd (run_file world_notes notes_txt empty_store))
                    !! notes_id = Some (Some 3).
Proof. intros s. subst s. repeat split; vm_compute; reflexivity. Qed.

(** C3. With [force_reindex] an unchanged file is announced as processed
    but [index_single_file] skips it: nothing is loaded, no chunk is added
    and the chunk ids stay the old ones.  A modified file is reprocessed
    into four chunks, which are stored behind the three stale ones (their
    removal is refused by the store and only a warning is printed), so seven
    chunks carry its id while its record keeps the stale count three. *)
Theorem force_reindex_skips_unchanged_file :
  let s := snd (run_dir world_notes true tracked_notes) in
  let s' := snd (run_dir world_notes_edited true tracked_notes) in
  fst (is_file_modified abspath_id poly_digest world_notes notes_txt
         tracked_notes) = (false, unchanged) /\
  happened (EPrint Info "🔄 Force reindex: processing all files") s = true /\
  happened (ELoad notes_txt) s = false /\
  happened (EVecAdd 3) s = false /\
  vectors s = vectors tracked_notes /\
  next_uid s = next_uid tracked_notes /\
  happened (EVecAdd 4) s' = true /\
  take 3 (vectors s') = vectors tracked_notes /\
  length (chunks_of notes_id s') = 7 /\
  chunk_count <$> meta s' !! notes_id = Some (Some 3).
Proof. intros s s'. subst s s'. repeat split; vm_compute; reflexivity. Qed.

(** C4. The loader raises on [notes.txt]; [guide.md] is sound.  The error
    is printed, [guide.md] is still indexed, and yet [notes.txt] gets a
    record, so the next pass classifies it [unchanged] and never loads it
    again.  The single-file entry point leaves the same file untracked. *)
Theorem load_failure_is_recorded :
  let s := snd (run_dir world_broken false empty_store) in
  let s' := snd (run_dir world_broken false (forget_trace s)) in
  loaded broken_entry = Raised "'utf-8' codec can't decode byte 0xff" /\
  happened (EPrint Error
              "Error loading file: 'utf-8' codec can't decode byte 0xff") s
    = true /\
  chunks_of notes_id s = [] /\
  length (chunks_of guide_id s) = 2 /\
  chunk_count <$> meta s !! notes_id = Some (Some 0) /\
  fst (is_file_modified abspath_id poly_digest world_broken notes_txt s)
    = (false, unchanged) /\
  happened (ELoad notes_txt) s' = false /\
  fst (run_file world_broken notes_txt empty_store) = (false, 0) /\
  meta (snd (run_file world_broken notes_txt empty_store)) !! notes_id = None.
Proof. intros s s'. subst s s'. repeat split; vm_compute; reflexivity. Qed.

(** ** The metadata store: writing, reading back, removing *)

Section MetadataStore.

Variable abspath : string -> string.
Variable md5 : string -> N.
Variable w : World.

Local Abbreviation fid_of p := (generate_file_id abspath md5 p).

Lemma meta_get_ok id s :
  meta_fault w = None ->
  meta_get w id s = (Returned (meta s !! id), log_events s [EMetaGet id]).
Proof.
  intros F. unfold meta_get, meta_call, mbind, M_bind, bind. rewrite F.
  reflexivity.
Qed.

Lemma meta_get_fault id msg s :
  meta_fault w = Some msg ->
  meta_get w id s = (Raised msg, log_events s [EMetaGet id]).
Proof.
  intros F. unfold meta_get, meta_call, mbind, M_bind, bind. rewrite F.
  reflexivity.
Qed.

Lemma get_file_metadata_run p e s :
  fs w !! p = Some e ->
  get_file_metadata abspath md5 w p true s =
    (Some (mkMetadata (fid_of p) (abspath p) (basename p) (st_size e)
             (st_mtime e) (lower (splitext_ext p)) (clock w)
             (Some (hash_of_entry md5 e)) None),
     log_events s [EHash p]).
Proof.
  intros H. unfold get_file_metadata, get_file_hash, mbind, M_bind, bind.
  rewrite H. reflexivity.
Qed.

(** The events of a successful [store_file_metadata] *)
Lemma store_file_metadata_ok p e n s :
  fs w !! p = Some e -> meta_fault w = None ->
  store_file_metadata abspath md5 w p n s =
    (true,
     with_meta s (<[fid_of p := stored_record abspath md5 w p e n]> (meta s))
       (match meta s !! fid_of p with
        | Some _ =>
            [EHash p; EMetaGet (fid_of p); EMetaUpdate (fid_of p);
             EPrint Info ("Updated metadata for: " ++ basename p)]
        | None =>
            [EHash p; EMetaGet (fid_of p); EMetaAdd (fid_of p);
             EPrint Info ("Added metadata for: " ++ basename p)]
        end)).
Proof.
  intros H F. unfold store_file_metadata.
  rewrite (bind_run _ _ _ _ _ (get_file_metadata_run p e s H)).
  cbn [file_id with_chunk_count file_name].
  rewrite (bind_run _ _ _ _ _ (meta_get_ok _ _ F)).
  cbn [meta log_events].
  destruct (meta s !! fid_of p) as [old|];
    unfold meta_update, meta_add, meta_call, mbind, M_bind, bind; rewrite F;
    unfold with_meta, stored_record; same_state.
Qed.

Lemma store_file_metadata_missing p n s :
  fs w !! p = None -> store_file_metadata abspath md5 w p n s = (false, s).
Proof.
  intros H. unfold store_file_metadata, get_file_metadata, mbind, M_bind, bind.
  rewrite H. reflexivity.
Qed.

Lemma store_file_metadata_fault p e msg n s :
  fs w !! p = Some e -> meta_fault w = Some msg ->
  store_file_metadata abspath md5 w p n s =
    (false,
     log_events s
       [EHash p; EMetaGet (fid_of p);
        EPrint Error ("Error storing file metadata: " ++ msg)]).
Proof.
  intros H F. unfold store_file_metadata.
  rewrite (bind_run _ _ _ _ _ (get_file_metadata_run p e s H)).
  cbn [file_id with_chunk_count file_name].
  rewrite (bind_run _ _ _ _ _ (meta_get_fault _ _ _ F)).
  same_state.
Qed.

Lemma get_file_chunk_count_run p s :
  meta_fault w = None ->
  get_file_chunk_count abspath md5 w p s =
    (match meta s !! fid_of p with
     | Some md => default 0 (chunk_count md)
     | None => 0
     end, log_events s [EMetaGet (fid_of p)]).
Proof.
  intros F. unfold get_file_chunk_count.
  rewrite (bind_run _ _ _ _ _ (meta_get_ok _ _ F)).
  by destruct (meta s !! fid_of p).
Qed.

(** X1. Writing and reading back: after [store_file_metadata p n] on an
    existing file and a healthy store, [get_file_chunk_count p] is [n]; the
    records of all other file ids and the document collection are as
    before. *)
Theorem store_file_metadata_then_chunk_count p e n s :
  fs w !! p = Some e -> meta_fault w = None ->
  let s' := snd (store_file_metadata abspath md5 w p n s) in
  fst (store_file_metadata abspath md5 w p n s) = true /\
  fst (get_file_chunk_count abspath md5 w p s') = n /\
  (forall id, id <> fid_of p -> meta s' !! id = meta s !! id) /\
  vectors s' = vectors s.
Proof.
  intros H F s'. subst s'. rewrite (store_file_metadata_ok p e n s H F).
  cbn [fst snd]. split; [done|]. split.
  - rewrite get_file_chunk_count_run by done. cbn [fst with_meta meta].
    by rewrite lookup_insert_eq.
  - split; [|done]. intros id N. cbn [with_meta meta].
    by rewrite lookup_insert_ne.
Qed.

(** X2. A file whose metadata was just stored is classified [unchanged], as
    long as the file system stays as it is. *)
Theorem store_file_metadata_then_unchanged p e n s :
  fs w !! p = Some e -> meta_fault w = None ->
  fst (is_file_modified abspath md5 w p
         (snd (store_file_metadata abspath md5 w p n s)))
    = (false, unchanged).
Proof.
  intros H F. rewrite (store_file_metadata_ok p e n s H F). cbn [snd].
  rewrite (is_file_modified_tracked abspath md5 w p e
             (stored_record abspath md5 w p e n)); [|done|done|].
  - unfold tracked_answer, stored_record. cbn [mtime size content_hash].
    rewrite !Z.eqb_refl. cbn. by rewrite bool_decide_true.
  - cbn [with_meta meta]. by rewrite lookup_insert_eq.
Qed.

(** X3. [store_file_metadata] answers [False] exactly when the path does not
    exist or the metadata store raises, and then neither collection has
    changed. *)
Theorem store_file_metadata_failure p n s :
  fst (store_file_metadata abspath md5 w p n s) = false ->
  (fs w !! p = None \/ is_Some (meta_fault w)) /\
  meta (snd (store_file_metadata abspath md5 w p n s)) = meta s /\
  vectors (snd (store_file_metadata abspath md5 w p n s)) = vectors s.
Proof.
  destruct (fs w !! p) as [e|] eqn:H.
  - destruct (meta_fault w) as [msg|] eqn:F.
    + rewrite (store_file_metadata_fault p e msg n s H F). intros _.
      split; [right; by eexists|done].
    + by rewrite (store_file_metadata_ok p e n s H F).
  - rewrite (store_file_metadata_missing p n s H). intros _.
    split; [by left|done].
Qed.

(** X4. Removing the record of a file: with a healthy store
    [remove_file_metadata] answers [True]; afterwards the chunk count of the
    file reads 0, an existing file is classified [new] again, and the
    records of other file ids are untouched. *)
Theorem remove_file_metadata_forgets p s :
  meta_fault w = None ->
  let s' := snd (remove_file_metadata abspath md5 w p s) in
  fst (remove_file_metadata abspath md5 w p s) = true /\
  fst (get_file_chunk_count abspath md5 w p s') = 0 /\
  (is_Some (fs w !! p) ->
   fst (is_file_modified abspath md5 w p s') = (true, new)) /\
  (forall id, id <> fid_of p -> meta s' !! id = meta s !! id) /\
  vectors s' = vectors s.
Proof.
  intros F s'.
  assert (remove_file_metadata abspath md5 w p s =
          (true, with_meta s (delete (fid_of p) (meta s))
                   [EMetaDelete (fid_of p);
                    EPrint Info ("Removed metadata for: " ++ basename p)]))
    as E.
  { unfold remove_file_metadata, meta_delete, meta_call, mbind, M_bind, bind.
    rewrite F. unfold with_meta. same_state. }
  subst s'. rewrite E. cbn [fst snd]. split; [done|]. split.
  - rewrite get_file_chunk_count_run by done. cbn [fst with_meta meta].
    by rewrite lookup_delete_eq.
  - split; [|split; [|done]].
    + intros [e H].
      rewrite (is_file_modified_untracked abspath md5 w p e); [done..|].
      cbn [with_meta meta]. by rewrite lookup_delete_eq.
    + intros id N. cbn [with_meta meta]. by rewrite lookup_delete_ne.
Qed.

End MetadataStore.

(** ** What a computation keeps *)

Lemma keeps_ret P {A} (a : A) : keeps P (ret a).
Proof. by intros s H. Qed.

Lemma keeps_bind P {A B} (c : M A) (k : A -> M B) :
  keeps P c -> (forall a, keeps P (k a)) -> keeps P (c ≫= k).
Proof.
  intros Hc Hk s H. unfold mbind, M_bind, bind.
  specialize (Hc s H). destruct (c s) as [a s1]. by apply Hk.
Qed.

Lemma keeps_emit P e : keeps P (emit e).
Proof. by intros s H. Qed.

Lemma keeps_get_meta P : keeps P get_meta.
Proof. by intros s H. Qed.

Lemma keeps_get_vectors P : keeps P get_vectors.
Proof. by intros s H. Qed.

Lemma keeps_for_each P {A} (l : list A) (body : A -> M unit) :
  (forall x, keeps P (body x)) -> keeps P (for_each l body).
Proof.
  intros Hb. induction l as [|x l IH]; [apply keeps_ret|].
  apply keeps_bind; [apply Hb | intros _; apply IH].
Qed.

(** Splits a goal [keeps P c] along the structure of [c]; what is left are
    the writes to a collection. *)
Ltac keeps_step :=
  lazymatch goal with
  | |- keeps _ (ret _) => apply keeps_ret
  | |- keeps _ (_ ≫= _) => apply keeps_bind; [|intros ?]
  | |- keeps _ (emit _) => apply keeps_emit
  | |- keeps _ (print _) => apply keeps_emit
  | |- keeps _ (print_info _) => apply keeps_emit
  | |- keeps _ (print_success _) => apply keeps_emit
  | |- keeps _ (print_warning _) => apply keeps_emit
  | |- keeps _ (print_error _) => apply keeps_emit
  | |- keeps _ (print_section_header _) => apply keeps_emit
  | |- keeps _ get_meta => apply keeps_get_meta
  | |- keeps _ get_vectors => apply keeps_get_vectors
  | |- keeps _ (for_each _ _) => apply keeps_for_each; intros ?
  | |- keeps _ (match ?x with _ => _ end) => destruct x eqn:?
  | |- keeps _ (if ?b then _ else _) => destruct b eqn:?
  | |- keeps _ (let '(_, _) := ?x in _) => destruct x eqn:?
  end.

Ltac keeps_auto := repeat keeps_step.

Section Frames.

Variable abspath : string -> string.
Variable md5 : string -> N.
Variable split_documents : list Document -> list Document.
Variable w : World.

(** *** Computations that write to no collection *)

Section ReadOnly.

Variable P : gmap string Metadata -> list Chunk -> nat -> Prop.

Lemma keeps_meta_get id : keeps P (meta_get w id).
Proof. unfold meta_get, meta_call. keeps_auto. Qed.

Lemma keeps_get_file_hash p : keeps P (get_file_hash md5 w p).
Proof. unfold get_file_hash. keeps_auto. Qed.

Lemma keeps_get_file_metadata p b :
  keeps P (get_file_metadata abspath md5 w p b).
Proof.
  unfold get_file_metadata. keeps_auto. apply keeps_get_file_hash.
Qed.

Lemma keeps_is_file_modified p : keeps P (is_file_modified abspath md5 w p).
Proof.
  unfold is_file_modified.
  keeps_auto; auto using keeps_get_file_metadata, keeps_meta_get,
    keeps_get_file_hash.
Qed.

Lemma keeps_get_file_chunk_count p :
  keeps P (get_file_chunk_count abspath md5 w p).
Proof. unfold get_file_chunk_count. keeps_auto; apply keeps_meta_get. Qed.

Lemma keeps_get_modified_files_loop l acc :
  keeps P (get_modified_files_loop abspath md5 w l acc).
Proof.
  revert acc. induction l as [|p l IH]; intros acc; simpl; keeps_auto;
    auto using keeps_is_file_modified.
Qed.

Lemma keeps_get_all_tracked_files : keeps P (get_all_tracked_files w).
Proof.
  unfold get_all_tracked_files, meta_get_all, meta_call. keeps_auto.
Qed.

Lemma keeps_validate_file_path p : keeps P (validate_file_path w p).
Proof. unfold validate_file_path. keeps_auto. Qed.

Lemma keeps_validate_directory_path d : keeps P (validate_directory_path w d).
Proof. unfold validate_directory_path. keeps_auto. Qed.

Lemma keeps_load_pdf p : keeps P (load_pdf w p).
Proof. unfold load_pdf, load_file. keeps_auto. Qed.

Lemma keeps_load_text p : keeps P (load_text w p).
Proof. unfold load_text, load_file. keeps_auto. Qed.

Lemma keeps_chunk_documents docs :
  keeps P (chunk_documents split_documents docs).
Proof. unfold chunk_documents. keeps_auto. Qed.

End ReadOnly.

(** *** Computations that write to the metadata collection only *)

Section MetaWriters.

Variable P : gmap string Metadata -> list Chunk -> nat -> Prop.
Hypothesis P_blind : meta_blind P.

Lemma keeps_set_meta m : keeps P (set_meta m).
Proof. intros s H. simpl. by apply (P_blind (meta s)). Qed.

Lemma keeps_meta_add id md : keeps P (meta_add w id md).
Proof. unfold meta_add, meta_call. keeps_auto. apply keeps_set_meta. Qed.

Lemma keeps_meta_update id md : keeps P (meta_update w id md).
Proof. unfold meta_update, meta_call. keeps_auto. apply keeps_set_meta. Qed.

Lemma keeps_meta_delete id : keeps P (meta_delete w id).
Proof. unfold meta_delete, meta_call. keeps_auto. apply keeps_set_meta. Qed.

Lemma keeps_store_file_metadata p n :
  keeps P (store_file_metadata abspath md5 w p n).
Proof.
  unfold store_file_metadata.
  keeps_auto; auto using keeps_get_file_metadata, keeps_meta_get,
    keeps_meta_add, keeps_meta_update.
Qed.

Lemma keeps_cleanup_loop existing tracked deleted :
  keeps P (cleanup_loop w existing tracked deleted).
Proof.
  revert deleted. induction tracked as [|md l IH]; intros deleted; simpl;
    keeps_auto; auto using keeps_meta_delete.
Qed.

Lemma keeps_cleanup_deleted_files existing :
  keeps P (cleanup_deleted_files abspath w existing).
Proof.
  unfold cleanup_deleted_files.
  keeps_auto; auto using keeps_get_all_tracked_files, keeps_cleanup_loop.
Qed.

Lemma keeps_update_tracking_loop files file_status :
  keeps P (update_tracking_loop abspath md5 w files file_status).
Proof.
  unfold update_tracking_loop.
  keeps_auto; auto using keeps_get_file_chunk_count,
    keeps_store_file_metadata.
Qed.

End MetaWriters.

(** *** Computations that write to the document collection *)

Lemma keeps_vec_get_by_file_id P fid : keeps P (vec_get_by_file_id w fid).
Proof. unfold vec_get_by_file_id, vec_call. keeps_auto. Qed.

Section DocWriters.

Variable P : gmap string Metadata -> list Chunk -> nat -> Prop.
Hypothesis P_add :
  forall docs metas fid, keeps P (add_documents w docs metas fid).
Hypothesis P_delete : forall uids, keeps P (vec_delete w uids).

Lemma keeps_remove_documents_by_file_id fid :
  keeps P (remove_documents_by_file_id w fid).
Proof.
  unfold remove_documents_by_file_id.
  keeps_auto; auto using keeps_vec_get_by_file_id.
Qed.

Lemma keeps_process_and_index_documents docs fid :
  keeps P (process_and_index_documents split_documents w docs fid).
Proof.
  unfold process_and_index_documents.
  keeps_auto; auto using keeps_chunk_documents.
Qed.

Lemma keeps_index_single_file_no_tracking p :
  keeps P (index_single_file abspath md5 split_documents w p false).
Proof.
  unfold index_single_file.
  keeps_auto;
    auto using keeps_validate_file_path, keeps_is_file_modified,
      keeps_get_file_chunk_count, keeps_remove_documents_by_file_id,
      keeps_load_pdf, keeps_load_text, keeps_process_and_index_documents.
  all: by rewrite andb_false_r in *.
Qed.

Hypothesis P_blind : meta_blind P.

Lemma keeps_index_single_file p update_tracking :
  keeps P (index_single_file abspath md5 split_documents w p update_tracking).
Proof.
  unfold index_single_file.
  keeps_auto;
    auto using keeps_validate_file_path, keeps_is_file_modified,
      keeps_get_file_chunk_count, keeps_remove_documents_by_file_id,
      keeps_load_pdf, keeps_load_text, keeps_process_and_index_documents,
      keeps_store_file_metadata.
Qed.

Lemma keeps_process_files files total :
  keeps P (process_files abspath md5 split_documents w files total).
Proof.
  revert total. induction files as [|p l IH]; intros total; simpl;
    keeps_auto; auto using keeps_index_single_file_no_tracking.
Qed.

Lemma keeps_index_documents_from_directory d force :
  keeps P (index_documents_from_directory abspath md5 split_documents w d force).
Proof.
  unfold index_documents_from_directory, get_modified_files.
  keeps_auto;
    auto using keeps_validate_directory_path, keeps_get_modified_files_loop,
      keeps_process_files, keeps_update_tracking_loop,
      keeps_cleanup_deleted_files.
Qed.

End DocWriters.

End Frames.

(** ** Which collection an operation can change *)

Section Writers.

Variable abspath : string -> string.
Variable md5 : string -> N.
Variable split_documents : list Document -> list Document.
Variable w : World.

Lemma keeps_add_documents_blind P docs metas fid :
  docs_blind P -> keeps P (add_documents w docs metas fid).
Proof.
  intros B s H. unfold add_documents, fresh_uids, vec_add.
  unfold mbind, M_bind, bind, emit, set_vectors, get_vectors, print, ret.
  destruct (vec_fault w); simpl; [by eapply B|].
  match goal with
  | |- context [match ?l with [] => _ | _ :: _ => _ end] => destruct l
  end; simpl; by eapply B.
Qed.

Lemma keeps_vec_delete_blind P uids :
  docs_blind P -> keeps P (vec_delete w uids).
Proof.
  intros B s H. unfold vec_delete, vec_call.
  unfold mbind, M_bind, bind, emit, set_vectors, get_vectors, ret.
  destruct (vec_fault w); simpl; by eapply B.
Qed.

(** X5. With [update_tracking=False], as the directory pass calls it,
    [index_single_file] never writes to the metadata collection, whatever
    the file, the stores and the faults. *)
Theorem index_single_file_no_tracking_keeps_metadata p s :
  meta (snd (index_single_file abspath md5 split_documents w p false s))
    = meta s.
Proof.
  apply (keeps_index_single_file_no_tracking abspath md5 split_documents w
           (fun m _ _ => m = meta s)); [| |done].
  - intros. apply keeps_add_documents_blind. by intros m v v' n n'.
  - intros. apply keeps_vec_delete_blind. by intros m v v' n n'.
Qed.

(** X6. Classifying a list of paths reads the stores and changes neither:
    records, chunks and the id supply are the same after
    [get_modified_files]. *)
Theorem get_modified_files_reads_only paths s :
  let s' := snd (get_modified_files abspath md5 w paths s) in
  meta s' = meta s /\ vectors s' = vectors s /\ next_uid s' = next_uid s.
Proof.
  apply (keeps_get_modified_files_loop abspath md5 w
           (fun m v n => m = meta s /\ v = vectors s /\ n = next_uid s)).
  done.
Qed.

(** X7. The file tracker owns the metadata collection only:
    [store_file_metadata] and [cleanup_deleted_files] leave the document
    collection and the id supply exactly as they found them. *)
Theorem file_tracker_keeps_documents p n existing s :
  let s1 := snd (store_file_metadata abspath md5 w p n s) in
  let s2 := snd (cleanup_deleted_files abspath w existing s) in
  vectors s1 = vectors s /\ next_uid s1 = next_uid s /\
  vectors s2 = vectors s /\ next_uid s2 = next_uid s.
Proof.
  intros s1 s2.
  assert (meta_blind (fun _ v n => v = vectors s /\ n = next_uid s)) as B
    by (by intros m m' v k).
  destruct (keeps_store_file_metadata abspath md5 w _ B p n s) as [? ?];
    [done|].
  destruct (keeps_cleanup_deleted_files abspath w _ B existing s) as [? ?];
    [done|].
  done.
Qed.

(** *** Chunk ids stay distinct *)

Lemma zip3_uids_prefix (ids : list nat) (docs : list string)
    (metas : list (gmap string MetaVal)) :
  map (fun x => fst (fst x)) (zip (zip ids docs) metas) `prefix_of` ids.
Proof.
  revert docs metas.
  induction ids as [|i ids IH]; intros [|d docs] [|m metas]; simpl;
    try apply prefix_nil.
  by apply prefix_cons.
Qed.

Lemma new_chunks_uids start docs metas fid :
  map chunk_uid (new_chunks start docs metas fid)
    `prefix_of` seq start (length docs).
Proof.
  unfold new_chunks. rewrite map_map. simpl. apply zip3_uids_prefix.
Qed.

Lemma add_documents_run docs metas fid s :
  vec_fault w = None -> new_chunks (next_uid s) docs metas fid <> [] ->
  add_documents w docs metas fid s =
    (Returned (seq (next_uid s) (length docs)),
     mkSt (meta s) (vectors s ++ new_chunks (next_uid s) docs metas fid)
       (next_uid s + length docs)
       (trace s ++
        [EVecAdd (length (new_chunks (next_uid s) docs metas fid));
         EPrint Plain ("✅ Successfully indexed " ++ pretty (length docs)
                       ++ " document chunks!")])).
Proof.
  intros F NE. unfold add_documents, fresh_uids, vec_add.
  unfold mbind, M_bind, bind, emit, set_vectors, get_vectors, print, ret.
  rewrite F. unfold new_chunks in *. simpl in *.
  match goal with
  | |- context [match ?l with [] => _ | _ :: _ => _ end] =>
      destruct l eqn:E; [done|]
  end.
  simpl. by rewrite <- app_assoc.
Qed.

(** An empty list of chunks is turned down by the collection *)
Lemma add_documents_empty docs metas fid s :
  vec_fault w = None -> new_chunks (next_uid s) docs metas fid = [] ->
  add_documents w docs metas fid s =
    (Raised empty_add_refused,
     mkSt (meta s) (vectors s) (next_uid s + length docs)
       (trace s ++ [EVecAdd 0])).
Proof.
  intros F NE. unfold add_documents, fresh_uids, vec_add.
  unfold mbind, M_bind, bind, emit, set_vectors, get_vectors, print, ret.
  rewrite F. unfold new_chunks in *. simpl in *. by rewrite NE.
Qed.

Lemma add_documents_fault docs metas fid msg s :
  vec_fault w = Some msg ->
  add_documents w docs metas fid s =
    (Raised msg,
     mkSt (meta s) (vectors s) (next_uid s + length docs)
       (trace s ++
        [EVecAdd (length (new_chunks (next_uid s) docs metas fid))])).
Proof.
  intros F. unfold add_documents, fresh_uids, vec_add.
  unfold mbind, M_bind, bind, emit, set_vectors, get_vectors, print, ret.
  rewrite F. reflexivity.
Qed.

Lemma uids_fresh_weaken v n k : uids_fresh v n -> uids_fresh v (n + k).
Proof.
  intros [N F]. split; [done|]. eapply Forall_impl; [done|]. simpl. lia.
Qed.

Lemma uids_fresh_app v n docs metas fid :
  uids_fresh v n ->
  uids_fresh (v ++ new_chunks n docs metas fid) (n + length docs).
Proof.
  intros [N F].
  destruct (new_chunks_uids n docs metas fid) as [rest E].
  assert (Forall (fun u => n <= u < n + length docs)
            (map chunk_uid (new_chunks n docs metas fid))) as R.
  { apply Forall_forall. intros u Hu.
    assert (u ∈ seq n (length docs)) as Hs
      by (rewrite E; apply elem_of_app; by left).
    apply elem_of_seq in Hs. lia. }
  split.
  - rewrite map_app. apply NoDup_app. split; [done|]. split.
    + intros u Hu Hu'. rewrite Forall_forall in R. specialize (R u Hu').
      apply list_elem_of_fmap in Hu as (c & -> & Hc).
      rewrite Forall_forall in F. specialize (F c Hc). simpl in F. lia.
    + pose proof (NoDup_seq n (length docs)) as S. rewrite E in S.
      by apply NoDup_app in S as (? & _).
  - apply Forall_app. split.
    + eapply Forall_impl; [done|]. simpl. lia.
    + apply Forall_forall. intros c Hc. rewrite Forall_forall in R.
      assert (chunk_uid c ∈ map chunk_uid (new_chunks n docs metas fid)) as Hu
        by (apply list_elem_of_fmap; eauto).
      specialize (R _ Hu). lia.
Qed.

Lemma uids_fresh_filter (f : Chunk -> bool) v n :
  uids_fresh v n -> uids_fresh (List.filter f v) n.
Proof.
  intros [N F]. split.
  - clear F. induction v as [|c v IH]; simpl; [done|].
    apply NoDup_cons in N as [Hc N].
    destruct (f c); simpl; [|by apply IH].
    apply NoDup_cons. split; [|by apply IH].
    intros Hin. apply Hc. apply list_elem_of_fmap in Hin as (c' & E & Hc').
    apply list_elem_of_fmap. exists c'. split; [done|].
    apply list_elem_of_In. apply list_elem_of_In in Hc'.
    by apply filter_In in Hc' as [? _].
  - apply Forall_forall. intros c Hc. rewrite Forall_forall in F.
    apply F. apply list_elem_of_In. apply list_elem_of_In in Hc.
    by apply filter_In in Hc as [? _].
Qed.

Lemma keeps_uids_add_documents docs metas fid :
  keeps (fun _ v n => uids_fresh v n) (add_documents w docs metas fid).
Proof.
  intros s H. destruct (vec_fault w) as [msg|] eqn:F.
  - rewrite (add_documents_fault docs metas fid msg s F). simpl.
    by apply uids_fresh_weaken.
  - destruct (new_chunks (next_uid s) docs metas fid) eqn:E.
    + rewrite (add_documents_empty docs metas fid s F E). simpl.
      by apply uids_fresh_weaken.
    + rewrite (add_documents_run docs metas fid s F) by by rewrite E.
      simpl. by apply uids_fresh_app.
Qed.

Lemma keeps_uids_vec_delete uids :
  keeps (fun _ v n => uids_fresh v n) (vec_delete w uids).
Proof.
  intros s H. unfold vec_delete, vec_call.
  unfold mbind, M_bind, bind, emit, set_vectors, get_vectors, ret.
  destruct (vec_fault w); simpl; [done|]. by apply uids_fresh_filter.
Qed.

(** X8. Chunk ids are never reused: if the ids of the document collection
    are pairwise distinct and all below the next fresh id, the same holds
    after [index_single_file] and after a whole directory pass, with or
    without [force_reindex] and whatever fails on the way. *)
Theorem indexing_keeps_chunk_ids_distinct p update_tracking d force s :
  uids_fresh (vectors s) (next_uid s) ->
  let s1 :=
    snd (index_single_file abspath md5 split_documents w p update_tracking s) in
  let s2 :=
    snd (index_documents_from_directory abspath md5 split_documents w d force s)
  in
  uids_fresh (vectors s1) (next_uid s1) /\
  uids_fresh (vectors s2) (next_uid s2).
Proof.
  intros H s1 s2.
  assert (meta_blind (fun _ v n => uids_fresh v n)) as B by (by intros m m' v k).
  split.
  - by apply (keeps_index_single_file abspath md5 split_documents w _
                keeps_uids_add_documents keeps_uids_vec_delete B).
  - by apply (keeps_index_documents_from_directory abspath md5
                split_documents w _
                keeps_uids_add_documents keeps_uids_vec_delete B).
Qed.

End Writers.

(** ** Runs of the store operations *)

Lemma store_file_metadata_then_chunk_count_witness :
  fs world_notes !! notes_txt = Some (text_file notes_txt notes_content 100) /\
  meta_fault world_notes = None /\
  fst (get_file_chunk_count abspath_id poly_digest world_notes notes_txt
         (snd (store_file_metadata abspath_id poly_digest world_notes
                 notes_txt 5 empty_store))) = 5.
Proof.
  assert (fs world_notes !! notes_txt
          = Some (text_file notes_txt notes_content 100)) as H by reflexivity.
  assert (meta_fault world_notes = None) as F by reflexivity.
  split; [exact H|]. split; [exact F|].
  exact (proj1 (proj2 (store_file_metadata_then_chunk_count abspath_id
                         poly_digest world_notes notes_txt _ 5 empty_store
                         H F))).
Defined.

Lemma store_file_metadata_then_unchanged_witness :
  fs world_notes !! notes_txt = Some (text_file notes_txt notes_content 100) /\
  meta_fault world_notes = None /\
  fst (is_file_modified abspath_id poly_digest world_notes notes_txt
         (snd (store_file_metadata abspath_id poly_digest world_notes
                 notes_txt 5 empty_store))) = (false, unchanged).
Proof.
  assert (fs world_notes !! notes_txt
          = Some (text_file notes_txt notes_content 100)) as H by reflexivity.
  assert (meta_fault world_notes = None) as F by reflexivity.
  split; [exact H|]. split; [exact F|].
  exact (store_file_metadata_then_unchanged abspath_id poly_digest world_notes
           notes_txt _ 5 empty_store H F).
Defined.

Lemma store_file_metadata_failure_witness :
  fst (store_file_metadata abspath_id poly_digest world_store_down notes_txt 5
         tracked_notes) = false /\
  meta (snd (store_file_metadata abspath_id poly_digest world_store_down
               notes_txt 5 tracked_notes)) = meta tracked_notes.
Proof.
  assert (fst (store_file_metadata abspath_id poly_digest world_store_down
                 notes_txt 5 tracked_notes) = false) as H
    by (vm_compute; reflexivity).
  split; [exact H|].
  exact (proj1 (proj2 (store_file_metadata_failure abspath_id poly_digest
                         world_store_down notes_txt 5 tracked_notes H))).
Defined.

Lemma remove_file_metadata_forgets_witness :
  meta_fault world_notes = None /\
  fst (remove_file_metadata abspath_id poly_digest world_notes notes_txt
         tracked_notes) = true /\
  fst (get_file_chunk_count abspath_id poly_digest world_notes notes_txt
         (snd (remove_file_metadata abspath_id poly_digest world_notes
                 notes_txt tracked_notes))) = 0.
Proof.
  assert (meta_fault world_notes = None) as F by reflexivity.
  split; [exact F|].
  destruct (remove_file_metadata_forgets abspath_id poly_digest world_notes
              notes_txt tracked_notes F) as (R & C & _).
  split; [exact R | exact C].
Defined.

Lemma indexing_keeps_chunk_ids_distinct_witness :
  uids_fresh (vectors tracked_notes) (next_uid tracked_notes) /\
  uids_fresh
    (vectors (snd (run_dir world_notes_edited false tracked_notes)))
    (next_uid (snd (run_dir world_notes_edited false tracked_notes))).
Proof.
  assert (uids_fresh (vectors tracked_notes) (next_uid tracked_notes)) as H.
  { unfold uids_fresh. apply (bool_decide_unpack _). vm_compute. exact I. }
  split; [exact H|].
  exact (proj2 (indexing_keeps_chunk_ids_distinct abspath_id poly_digest
                  (fixed_splitter 12) world_notes_edited notes_txt true
                  (Some "/docs") false tracked_notes H)).
Defined.

(** ** The document collection: removing and adding the chunks of a file *)

Lemma tagged_other fid fid' c :
  tagged fid c = true -> fid' <> fid -> tagged fid' c = false.
Proof.
  unfold tagged. intros T N. apply bool_decide_eq_true in T.
  apply bool_decide_eq_false. rewrite T. intros [= E]. by apply N.
Qed.

Lemma filter_all {A} (f : A -> bool) (l : list A) :
  Forall (fun x => f x = true) l -> List.filter f l = l.
Proof.
  induction 1 as [|x l H _ IH]; simpl; [done|]. by rewrite H, IH.
Qed.

Lemma filter_none {A} (f : A -> bool) (l : list A) :
  Forall (fun x => f x = false) l -> List.filter f l = [].
Proof.
  induction 1 as [|x l H _ IH]; simpl; [done|]. by rewrite H, IH.
Qed.

Section VectorStore.

Variable split_documents : list Document -> list Document.
Variable w : World.

Lemma remove_documents_by_file_id_run fid s :
  remove_documents_by_file_id w fid s =
    (0, log_events s
          [EVecGet fid;
           EPrint Warning ("Error removing documents by file_id: "
                           ++ default include_refused (vec_fault w))]).
Proof.
  unfold remove_documents_by_file_id, vec_get_by_file_id.
  unfold mbind, M_bind, bind, emit, print_warning, ret, log_events.
  destruct (vec_fault w); simpl; by rewrite <- app_assoc.
Qed.

(** X9. Removing the chunks of a file removes nothing.  The query for the
    ids of the chunks names [ids] in its include list, which the store turns
    down, so on every collection [remove_documents_by_file_id] sends no
    deletion, prints a warning and answers 0: records, chunks and id supply
    are as before, and the chunks tagged with the file id are all still
    there.  [get_documents_by_file_id], whose query names [ids] as well,
    always answers the empty list. *)
Theorem remove_documents_by_file_id_removes_nothing fid s :
  let r := remove_documents_by_file_id w fid s in
  fst r = 0 /\
  same_stores s (snd r) /\
  chunks_of fid (snd r) = chunks_of fid s /\
  (exists e,
     trace (snd r) =
       (trace s ++
        [EVecGet fid;
         EPrint Warning ("Error removing documents by file_id: " ++ e)])%list)
  /\
  fst (get_documents_by_file_id w fid s) = [] /\
  same_stores s (snd (get_documents_by_file_id w fid s)).
Proof.
  intros r. subst r. rewrite remove_documents_by_file_id_run.
  cbn [fst snd]. do 3 (split; [done|]). split; [by eexists|].
  unfold get_documents_by_file_id, vec_get_documents.
  unfold mbind, M_bind, bind, emit, print_warning, ret.
  by destruct (vec_fault w).
Qed.

Lemma number_chunks_length i l : length (number_chunks i l) = length l.
Proof. revert i. induction l as [|c l IH]; intros i; simpl; [done|]. by f_equal. Qed.

Lemma number_chunks_text i l :
  map page_content (number_chunks i l) = map page_content l.
Proof.
  revert i. induction l as [|c l IH]; intros i; simpl; [done|].
  f_equal; [|done]. by destruct (doc_metadata c !! "chunk_id").
Qed.

Lemma new_chunks_spec start (docs : list string) metas fid :
  length metas = length docs -> is_empty_str fid = false ->
  length (new_chunks start docs metas fid) = length docs /\
  map chunk_text (new_chunks start docs metas fid) = docs /\
  Forall (fun c => tagged fid c = true) (new_chunks start docs metas fid).
Proof.
  intros L E. unfold new_chunks. rewrite E.
  revert start metas L. induction docs as [|d docs IH]; intros start metas L.
  - by destruct metas.
  - destruct metas as [|m metas]; [done|]. simpl in L.
    destruct (IH (S start) metas) as (I1 & I2 & I3); [lia|].
    simpl. split; [by f_equal|]. split; [by f_equal|].
    constructor; [|done]. unfold tagged. simpl.
    apply bool_decide_eq_true. by rewrite lookup_insert_eq.
Qed.

Lemma new_chunks_nil start (docs : list string) metas fid :
  length metas = length docs ->
  new_chunks start docs metas fid = [] <-> docs = [].
Proof.
  intros L. unfold new_chunks. split.
  - destruct docs as [|d docs]; [done|]. destruct metas as [|m metas]; [done|].
    simpl. by destruct (is_empty_str fid).
  - by intros ->.
Qed.

Lemma chunk_documents_run docs s :
  chunk_documents split_documents docs s =
    (number_chunks 0 (split_documents docs),
     log_events s
       [EPrint Plain
          ("Split " ++ pretty (length docs) ++ " documents into "
           ++ pretty (length (number_chunks 0 (split_documents docs)))
           ++ " chunks")]).
Proof. reflexivity. Qed.

Lemma number_chunks_nil l : number_chunks 0 l = [] <-> l = [].
Proof.
  split; [|by intros ->]. intros E.
  apply (f_equal (@length _)) in E. rewrite number_chunks_length in E.
  by destruct l.
Qed.

Lemma process_and_index_documents_run docs fid s :
  vec_fault w = None -> split_documents docs <> [] ->
  let chunked := number_chunks 0 (split_documents docs) in
  let texts := extract_text_from_chunks chunked in
  let added :=
    new_chunks (next_uid s) texts (get_chunk_metadata chunked) fid in
  process_and_index_documents split_documents w docs fid s =
    ((true, length texts),
     mkSt (meta s) (vectors s ++ added) (next_uid s + length texts)
       (trace s ++
        [EPrint Plain ("Split " ++ pretty (length docs) ++ " documents into "
                       ++ pretty (length chunked) ++ " chunks");
         EVecAdd (length added);
         EPrint Plain ("✅ Successfully indexed " ++ pretty (length texts)
                       ++ " document chunks!")])).
Proof.
  intros F NE chunked texts added. unfold process_and_index_documents.
  rewrite (bind_run _ _ _ _ _ (chunk_documents_run docs s)).
  assert (forall start,
            new_chunks start texts (get_chunk_metadata chunked) fid <> [])
    as NN.
  { intros start E. apply new_chunks_nil in E.
    - subst texts chunked. unfold extract_text_from_chunks in E.
      apply map_eq_nil in E. apply NE. by apply number_chunks_nil.
    - subst texts. unfold get_chunk_metadata, extract_text_from_chunks.
      by rewrite !length_map. }
  rewrite (bind_run _ _ _ _ _
             (add_documents_run w _ _ fid _ F (NN _))).
  unfold ret, log_events. cbn [meta vectors next_uid trace].
  subst added texts chunked. by rewrite <- app_assoc.
Qed.

(** No piece: the collection turns the empty addition down *)
Lemma process_and_index_documents_empty docs fid s :
  vec_fault w = None -> split_documents docs = [] ->
  process_and_index_documents split_documents w docs fid s =
    ((false, 0),
     log_events s
       [EPrint Plain ("Split " ++ pretty (length docs) ++ " documents into "
                      ++ pretty 0 ++ " chunks");
        EVecAdd 0;
        EPrint Error ("Error during indexing: " ++ empty_add_refused)]).
Proof.
  intros F E. unfold process_and_index_documents.
  rewrite (bind_run _ _ _ _ _ (chunk_documents_run docs s)).
  rewrite E. cbn [number_chunks extract_text_from_chunks get_chunk_metadata
                  map length].
  rewrite (bind_run _ _ _ _ _ (add_documents_empty w [] [] fid _ F eq_refl)).
  unfold print_error, emit, mbind, M_bind, bind, ret, log_events.
  cbn [meta vectors next_uid trace fst snd length].
  rewrite Nat.add_0_r, <- !app_assoc. reflexivity.
Qed.

(** X10. Storing the chunks of a file, with a healthy document store and a
    non-empty file id.  When the splitter makes at least one piece,
    [process_and_index_documents] answers success with the number of pieces;
    the collection is the old one followed by one new chunk per piece,
    carrying the text of the piece and tagged with the file id, so the
    chunks of every other file id are as before.  When the splitter makes no
    piece, as for an empty file, the collection turns the empty addition
    down: the answer is failure with count 0, the error is printed and
    nothing is stored. *)
Theorem process_and_index_documents_adds docs fid s :
  vec_fault w = None -> is_empty_str fid = false ->
  let r := process_and_index_documents split_documents w docs fid s in
  let n := length (split_documents docs) in
  (split_documents docs <> [] ->
   exists added : list Chunk,
     fst r = (true, n) /\
     vectors (snd r) = (vectors s ++ added)%list /\
     length added = n /\
     map chunk_text added = map page_content (split_documents docs) /\
     chunks_of fid (snd r) = (chunks_of fid s ++ added)%list /\
     (forall fid', fid' <> fid -> chunks_of fid' (snd r) = chunks_of fid' s) /\
     count (snd r) = count s + n /\
     meta (snd r) = meta s) /\
  (split_documents docs = [] ->
   fst r = (false, 0) /\ same_stores s (snd r) /\
   exists e,
     happened (EPrint Error ("Error during indexing: " ++ e)) (snd r) = true).
Proof.
  intros F E r n. subst r. split.
  - intros NE.
    rewrite (process_and_index_documents_run docs fid s F NE).
    set (chunked := number_chunks 0 (split_documents docs)).
    set (texts := extract_text_from_chunks chunked).
    set (added :=
           new_chunks (next_uid s) texts (get_chunk_metadata chunked) fid).
    assert (length texts = n) as Ln.
    { subst texts chunked n. unfold extract_text_from_chunks.
      by rewrite length_map, number_chunks_length. }
    destruct (new_chunks_spec (next_uid s) texts (get_chunk_metadata chunked)
                fid) as (A1 & A2 & A3); [|done|].
    { subst texts. unfold get_chunk_metadata, extract_text_from_chunks.
      by rewrite !length_map. }
    fold added in A1, A2, A3.
    exists added. cbn [fst snd vectors meta]. unfold chunks_of, count.
    cbn [vectors]. rewrite List.filter_app, length_app, A1, Ln.
    repeat split; try done.
    + rewrite A2. subst texts chunked. unfold extract_text_from_chunks.
      apply number_chunks_text.
    + by rewrite (filter_all _ added A3).
    + intros fid' N. rewrite List.filter_app, (filter_none (tagged fid') added).
      * by rewrite app_nil_r.
      * eapply Forall_impl; [exact A3|]. intros c T.
        by apply (tagged_other fid).
  - intros E0. rewrite (process_and_index_documents_empty docs fid s F E0).
    cbn [fst snd]. split; [done|]. split; [done|].
    exists empty_add_refused. unfold happened, log_events. cbn [trace].
    apply bool_decide_eq_true. rewrite !elem_of_app. right.
    apply elem_of_cons. right. apply elem_of_cons. right.
    apply elem_of_cons. by left.
Qed.

(** X11. When the document store raises, [process_and_index_documents]
    prints the error and answers failure with count 0; no chunk was added
    and no record written. *)
Theorem process_and_index_documents_fault docs fid msg s :
  vec_fault w = Some msg ->
  let r := process_and_index_documents split_documents w docs fid s in
  fst r = (false, 0) /\ vectors (snd r) = vectors s /\
  meta (snd r) = meta s /\
  happened (EPrint Error ("Error during indexing: " ++ msg)) (snd r) = true.
Proof.
  intros F r. subst r. unfold process_and_index_documents.
  rewrite (bind_run _ _ _ _ _ (chunk_documents_run docs s)).
  rewrite (bind_run _ _ _ _ _ (add_documents_fault w _ _ fid msg _ F)).
  unfold print_error, emit, mbind, M_bind, bind, ret, log_events.
  cbn [fst snd vectors meta trace].
  repeat split. unfold happened. cbn [trace].
  apply bool_decide_eq_true. rewrite !elem_of_app. right. by left.
Qed.

End VectorStore.

(** ** Runs of [index_single_file] *)

Lemma wp_bind {A B} (c : M A) (k : A -> M B) s Q :
  wp c s (fun a s' => wp (k a) s' Q) -> wp (c ≫= k) s Q.
Proof. unfold wp, mbind, M_bind, bind. by destruct (c s). Qed.

Lemma wp_ret {A} (a : A) s (Q : A -> St -> Prop) : Q a s -> wp (ret a) s Q.
Proof. done. Qed.

Lemma wp_mono {A} (c : M A) s (Q Q' : A -> St -> Prop) :
  wp c s Q -> (forall a s', Q a s' -> Q' a s') -> wp c s Q'.
Proof. unfold wp. auto. Qed.

Lemma wp_emit e s (Q : unit -> St -> Prop) :
  Q tt (log_events s [e]) -> wp (emit e) s Q.
Proof. done. Qed.

Lemma same_stores_refl s : same_stores s s.
Proof. done. Qed.

Lemma same_stores_trans s1 s2 s3 :
  same_stores s1 s2 -> same_stores s2 s3 -> same_stores s1 s3.
Proof. intros (? & ? & ?) (? & ? & ?). repeat split; congruence. Qed.

Lemma same_stores_log s es : same_stores s (log_events s es).
Proof. done. Qed.

(** A computation that keeps every property leaves the stores as they are *)
Lemma wp_read_only {A} (c : M A) s :
  (forall P, keeps P c) -> wp c s (fun a s' => a = fst (c s) /\ same_stores s s').
Proof.
  intros K. split; [done|].
  apply (K (fun m v n => m = meta s /\ v = vectors s /\ n = next_uid s)).
  done.
Qed.

Lemma hexdigest_not_empty d : is_empty_str (hexdigest d) = false.
Proof.
  pose proof (hexdigest_length d) as L.
  by destruct (hexdigest d).
Qed.

Section IndexSingleFile.

Variable abspath : string -> string.
Variable md5 : string -> N.
Variable split_documents : list Document -> list Document.
Variable w : World.

Local Abbreviation fid_of p := (generate_file_id abspath md5 p).
Local Abbreviation classify := (is_file_modified abspath md5 w).
Local Abbreviation index_file :=
  (index_single_file abspath md5 split_documents w).

(** The three answers for a path that exists *)
Lemma is_file_modified_answers p e s :
  fs w !! p = Some e ->
  fst (classify p s) = (true, new) \/ fst (classify p s) = (true, modified)
  \/ fst (classify p s) = (false, unchanged).
Proof.
  intros H. destruct (meta_fault w) as [msg|] eqn:F.
  - left. by rewrite (is_file_modified_fault abspath md5 w p e msg).
  - destruct (meta s !! fid_of p) as [sm|] eqn:L.
    + rewrite (is_file_modified_tracked abspath md5 w p e sm s H F L).
      unfold tracked_answer. repeat case_match; simpl; auto.
    + left. by rewrite (is_file_modified_untracked abspath md5 w p e).
Qed.

Lemma wp_classify p s0 s :
  same_stores s0 s ->
  wp (classify p) s
    (fun r s' => r = fst (classify p s0) /\ same_stores s0 s').
Proof.
  intros K. eapply wp_mono; [apply wp_read_only|].
  - intros P. apply keeps_is_file_modified.
  - intros r s' [-> K']. split; [|by eapply same_stores_trans].
    apply is_file_modified_result. apply K.
Qed.

(** The choice of the loader, as [index_single_file] makes it *)
Lemma wp_load p e s :
  fs w !! p = Some e ->
  endswith p ".pdf" || endswith p ".txt" || endswith p ".md" = true ->
  wp (if endswith p ".pdf" then d ← load_pdf w p; ret (Some d)
      else if endswith p ".txt" || endswith p ".md" then
        d ← load_text w p; ret (Some d)
      else ret None) s
    (fun r s' => r = Some (loaded e) /\ same_stores s s').
Proof.
  intros H X. unfold load_pdf, load_text, load_file.
  unfold wp, mbind, M_bind, bind, emit, print, ret. rewrite H.
  destruct (endswith p ".pdf"); simpl in *; [|rewrite X];
    by destruct (loaded e).
Qed.

Lemma wp_remove_documents fid s :
  wp (remove_documents_by_file_id w fid) s
    (fun n s' => n = 0 /\ same_stores s s').
Proof. unfold wp. by rewrite remove_documents_by_file_id_run. Qed.

Lemma wp_validate p s :
  fst (validate_file_path w p s) = true ->
  wp (validate_file_path w p) s (fun a s' => a = true /\ s' = s).
Proof. intros V. unfold wp. by rewrite (validate_file_path_true w p s V). Qed.

(** X12. A file that cannot be loaded: on a valid path that is not
    classified [unchanged] and whose loader raises, [index_single_file]
    answers failure with count 0, prints the error last and never writes a
    record.  The document collection is left as it was, also for a file
    classified [modified], whose old chunks the removal before the load does
    not remove. *)
Theorem index_single_file_load_failure p e msg update_tracking s :
  fst (validate_file_path w p s) = true ->
  fs w !! p = Some e -> loaded e = Raised msg ->
  endswith p ".pdf" || endswith p ".txt" || endswith p ".md" = true ->
  fst (classify p s) <> (false, unchanged) ->
  let r := index_file p update_tracking s in
  fst r = (false, 0) /\
  same_stores s (snd r) /\
  (exists t,
     trace (snd r) = (t ++ [EPrint Error ("Error loading file: " ++ msg)])%list).
Proof.
  intros V H L X C r. subst r.
  change (wp (index_file p update_tracking) s
            (fun a s' =>
               a = (false, 0) /\ same_stores s s' /\
               (exists t,
                  trace s' =
                    (t ++ [EPrint Error ("Error loading file: " ++ msg)])%list))).
  unfold index_single_file.
  apply wp_bind. eapply wp_mono; [by apply wp_validate|].
  intros a s0 [-> ->]. cbn [negb].
  apply wp_bind. eapply wp_mono; [by apply (wp_classify p s s)|].
  intros [b st] s1 [E K1].
  destruct (is_file_modified_answers p e s H) as [A|[A|A]];
    [| |by rewrite A in C]; rewrite A in E; injection E as -> ->;
    cbn [negb andb].
  - (* new *)
    apply wp_bind, wp_emit. rewrite bool_decide_eq_false_2 by done.
    apply wp_bind, wp_ret.
    apply wp_bind. eapply wp_mono; [by apply (wp_load p e)|].
    intros d s3 [-> K3]. rewrite L.
    apply wp_bind, wp_emit, wp_ret.
    split; [done|]. split; [|by eexists].
    eapply same_stores_trans; [|apply same_stores_log].
    eapply same_stores_trans; [|exact K3].
    eapply same_stores_trans; [exact K1|apply same_stores_log].
  - (* modified *)
    apply wp_bind, wp_emit. rewrite bool_decide_eq_true_2 by done.
    apply wp_bind, wp_bind. eapply wp_mono; [apply wp_remove_documents|].
    intros n s2 [_ K2]. apply wp_emit.
    apply wp_bind. eapply wp_mono; [by apply (wp_load p e)|].
    intros d s3 [-> K3]. rewrite L.
    apply wp_bind, wp_emit, wp_ret.
    split; [done|]. split; [|by eexists].
    eapply same_stores_trans; [|apply same_stores_log].
    eapply same_stores_trans; [|exact K3].
    eapply same_stores_trans; [|apply same_stores_log].
    eapply same_stores_trans; [|exact K2].
    eapply same_stores_trans; [exact K1|apply same_stores_log].
Qed.

Lemma wp_process docs fid s :
  vec_fault w = None -> is_empty_str fid = false ->
  split_documents docs <> [] ->
  wp (process_and_index_documents split_documents w docs fid) s
    (fun r s' =>
       r = (true, length (split_documents docs)) /\ meta s' = meta s /\
       exists added : list Chunk,
         vectors s' = (vectors s ++ added)%list /\
         length added = length (split_documents docs) /\
         Forall (fun c => tagged fid c = true) added).
Proof.
  intros F E NE. unfold wp.
  rewrite (process_and_index_documents_run split_documents w docs fid s F NE).
  cbn [fst snd meta vectors].
  set (chunked := number_chunks 0 (split_documents docs)).
  assert (length (extract_text_from_chunks chunked)
          = length (split_documents docs)) as Ln.
  { subst chunked. unfold extract_text_from_chunks.
    by rewrite length_map, number_chunks_length. }
  destruct (new_chunks_spec (next_uid s) (extract_text_from_chunks chunked)
              (get_chunk_metadata chunked) fid) as (A1 & _ & A3); [|done|].
  { unfold get_chunk_metadata, extract_text_from_chunks.
    by rewrite !length_map. }
  rewrite Ln. split; [done|]. split; [done|]. eexists. split; [done|].
  split; [congruence|done].
Qed.

Lemma wp_store p e n s :
  fs w !! p = Some e -> meta_fault w = None ->
  wp (store_file_metadata abspath md5 w p n) s
    (fun r s' =>
       r = true /\ vectors s' = vectors s /\
       meta s' = <[fid_of p := stored_record abspath md5 w p e n]> (meta s)).
Proof.
  intros H F. unfold wp.
  by rewrite (store_file_metadata_ok abspath md5 w p e n s H F).
Qed.

(** X13. Indexing one file: on a valid path that is not classified
    [unchanged], with a loader that yields documents, a splitter that makes
    at least one piece of them and both stores healthy, [index_single_file]
    answers success with the number of pieces and writes a record with that
    chunk count.  The collection is the old one followed by one chunk per
    piece, tagged with the id of the file: for a [modified] file the stale
    chunks are still there beside the fresh ones, so the collection holds
    more chunks of the file than its record says.  The chunks of other
    files are untouched, and the file is classified [unchanged]
    afterwards. *)
Theorem index_single_file_indexes p e docs s :
  fst (validate_file_path w p s) = true ->
  fs w !! p = Some e -> loaded e = Returned docs -> docs <> [] ->
  split_documents docs <> [] ->
  endswith p ".pdf" || endswith p ".txt" || endswith p ".md" = true ->
  meta_fault w = None -> vec_fault w = None ->
  fst (classify p s) <> (false, unchanged) ->
  let r := index_file p true s in
  let n := length (split_documents docs) in
  fst r = (true, n) /\
  chunk_count <$> meta (snd r) !! fid_of p = Some (Some n) /\
  (exists added : list Chunk,
     vectors (snd r) = (vectors s ++ added)%list /\ length added = n /\
     Forall (fun c => tagged (fid_of p) c = true) added) /\
  length (chunks_of (fid_of p) (snd r)) = length (chunks_of (fid_of p) s) + n /\
  (forall fid', fid' <> fid_of p ->
     chunks_of fid' (snd r) = chunks_of fid' s) /\
  fst (classify p (snd r)) = (false, unchanged).
Proof.
  intros V H L D NE X Fm Fv C r n. subst r.
  set (rec := stored_record abspath md5 w p e n).
  assert (is_empty_str (fid_of p) = false) as Efid
    by apply hexdigest_not_empty.
  (* what the final state has to satisfy *)
  assert (forall s' (added : list Chunk),
            meta s' = <[fid_of p := rec]> (meta s) ->
            vectors s' = (vectors s ++ added)%list ->
            length added = n ->
            Forall (fun c => tagged (fid_of p) c = true) added ->
            chunk_count <$> meta s' !! fid_of p = Some (Some n) /\
            (exists added : list Chunk,
               vectors s' = (vectors s ++ added)%list /\ length added = n /\
               Forall (fun c => tagged (fid_of p) c = true) added) /\
            length (chunks_of (fid_of p) s') =
              length (chunks_of (fid_of p) s) + n /\
            (forall fid', fid' <> fid_of p ->
               chunks_of fid' s' = chunks_of fid' s) /\
            fst (classify p s') = (false, unchanged)) as Final.
  { intros s' added Ms Vs La Ta. split; [|split; [|split; [|split]]].
    - rewrite Ms, lookup_insert_eq. done.
    - by exists added.
    - unfold chunks_of. rewrite Vs, List.filter_app, length_app.
      by rewrite (filter_all _ added Ta), La.
    - intros fid' Nf. unfold chunks_of. rewrite Vs, List.filter_app.
      rewrite (filter_none (tagged fid') added); [by rewrite app_nil_r|].
      eapply Forall_impl; [exact Ta|]. intros c T.
      by apply (tagged_other (fid_of p)).
    - rewrite (is_file_modified_tracked abspath md5 w p e rec); [|done|done|].
      + unfold tracked_answer, rec, stored_record.
        cbn [mtime size content_hash].
        rewrite !Z.eqb_refl. cbn. by rewrite bool_decide_true.
      + by rewrite Ms, lookup_insert_eq. }
  change (wp (index_file p true) s
            (fun a s' =>
               a = (true, n) /\
               chunk_count <$> meta s' !! fid_of p = Some (Some n) /\
               (exists added : list Chunk,
                  vectors s' = (vectors s ++ added)%list /\
                  length added = n /\
                  Forall (fun c => tagged (fid_of p) c = true) added) /\
               length (chunks_of (fid_of p) s') =
                 length (chunks_of (fid_of p) s) + n /\
               (forall fid', fid' <> fid_of p ->
                  chunks_of fid' s' = chunks_of fid' s) /\
               fst (classify p s') = (false, unchanged))).
  unfold index_single_file.
  apply wp_bind. eapply wp_mono; [by apply wp_validate|].
  intros a s0 [-> ->]. cbn [negb].
  apply wp_bind. eapply wp_mono; [by apply (wp_classify p s s)|].
  intros [b st] s1 [E K1].
  destruct docs as [|d0 docs']; [done|].
  destruct (is_file_modified_answers p e s H) as [A|[A|A]];
    [| |by rewrite A in C]; rewrite A in E; injection E as -> ->;
    cbn [negb andb].
  - (* new *)
    apply wp_bind, wp_emit. rewrite bool_decide_eq_false_2 by done.
    apply wp_bind, wp_ret.
    apply wp_bind. eapply wp_mono; [by apply (wp_load p e)|].
    intros d s3 [-> K3]. rewrite L.
    apply wp_bind. eapply wp_mono; [by apply wp_process|].
    intros [ok k] s4 (E4 & M4 & added & V4 & La & Ta).
    injection E4 as -> ->. cbn [andb].
    apply wp_bind, wp_bind. eapply wp_mono; [by apply (wp_store p e)|].
    intros ok s5 (_ & V5 & M5). apply wp_emit, wp_ret.
    split; [done|]. apply (Final _ added); [| |done|done].
    + destruct K1 as (M1 & _), K3 as (M3 & _).
      unfold log_events in *. cbn [meta] in *.
      by rewrite M5, M4, M3, M1.
    + destruct K1 as (_ & V1 & _), K3 as (_ & V3 & _).
      unfold log_events in *. cbn [vectors] in *.
      by rewrite V5, V4, V3, V1.
  - (* modified *)
    apply wp_bind, wp_emit. rewrite bool_decide_eq_true_2 by done.
    apply wp_bind, wp_bind. eapply wp_mono; [apply wp_remove_documents|].
    intros k0 s2 (_ & M2 & V2 & _). apply wp_emit.
    apply wp_bind. eapply wp_mono; [by apply (wp_load p e)|].
    intros d s3 [-> K3]. rewrite L.
    apply wp_bind. eapply wp_mono; [by apply wp_process|].
    intros [ok k] s4 (E4 & M4 & added & V4 & La & Ta).
    injection E4 as -> ->. cbn [andb].
    apply wp_bind, wp_bind. eapply wp_mono; [by apply (wp_store p e)|].
    intros ok s5 (_ & V5 & M5). apply wp_emit, wp_ret.
    split; [done|]. apply (Final _ added); [| |done|done].
    + destruct K1 as (M1 & _), K3 as (M3 & _).
      unfold log_events in *. cbn [meta] in *.
      by rewrite M5, M4, M3, M2, M1.
    + destruct K1 as (_ & V1 & _), K3 as (_ & V3 & _).
      unfold log_events in *. cbn [vectors] in *.
      by rewrite V5, V4, V3, V2, V1.
Qed.

End IndexSingleFile.

(** ** Runs of the document operations *)

Lemma process_and_index_documents_adds_witness :
  vec_fault world_notes = None /\
  is_empty_str notes_id = false /\
  fst (process_and_index_documents (fixed_splitter 12) world_notes
         [text_document notes_txt notes_content] notes_id empty_store)
    = (true, 3) /\
  fixed_splitter 12 [text_document notes_txt EmptyString] = [] /\
  fst (process_and_index_documents (fixed_splitter 12) world_notes
         [text_document notes_txt EmptyString] notes_id empty_store)
    = (false, 0).
Proof.
  assert (vec_fault world_notes = None) as F by reflexivity.
  assert (is_empty_str notes_id = false) as E by (vm_compute; reflexivity).
  assert (fixed_splitter 12 [text_document notes_txt notes_content] <> [])
    as NE by (vm_compute; discriminate).
  assert (fixed_splitter 12 [text_document notes_txt EmptyString] = [])
    as E0 by reflexivity.
  split; [exact F|]. split; [exact E|].
  destruct (process_and_index_documents_adds (fixed_splitter 12) world_notes
              [text_document notes_txt notes_content] notes_id empty_store F E)
    as [Some_pieces _].
  destruct (Some_pieces NE) as (added & R & _).
  destruct (process_and_index_documents_adds (fixed_splitter 12) world_notes
              [text_document notes_txt EmptyString] notes_id empty_store F E)
    as [_ No_piece].
  destruct (No_piece E0) as (R0 & _).
  split; [rewrite R; vm_compute; reflexivity|].
  split; [exact E0 | exact R0].
Defined.

Lemma process_and_index_documents_fault_witness :
  vec_fault world_vectors_down = Some "disk I/O error" /\
  fst (process_and_index_documents (fixed_splitter 12) world_vectors_down
         [text_document notes_txt notes_content] notes_id empty_store)
    = (false, 0).
Proof.
  assert (vec_fault world_vectors_down = Some "disk I/O error") as F
    by reflexivity.
  split; [exact F|].
  exact (proj1 (process_and_index_documents_fault (fixed_splitter 12)
                  world_vectors_down [text_document notes_txt notes_content]
                  notes_id _ empty_store F)).
Defined.

Lemma index_single_file_load_failure_witness :
  fst (validate_file_path world_notes_garbled notes_txt tracked_notes) = true /\
  fs world_notes_garbled !! notes_txt = Some garbled_entry /\
  loaded garbled_entry = Raised "'utf-8' codec can't decode byte 0xff" /\
  endswith notes_txt ".pdf" || endswith notes_txt ".txt"
    || endswith notes_txt ".md" = true /\
  fst (is_file_modified abspath_id poly_digest world_notes_garbled notes_txt
         tracked_notes) = (true, modified) /\
  fst (run_file world_notes_garbled notes_txt tracked_notes) = (false, 0) /\
  meta (snd (run_file world_notes_garbled notes_txt tracked_notes))
    = meta tracked_notes /\
  vectors (snd (run_file world_notes_garbled notes_txt tracked_notes))
    = vectors tracked_notes /\
  length (vectors tracked_notes) = 3.
Proof.
  assert (fst (validate_file_path world_notes_garbled notes_txt tracked_notes)
          = true) as V by (vm_compute; reflexivity).
  assert (fs world_notes_garbled !! notes_txt = Some garbled_entry) as H
    by (vm_compute; reflexivity).
  assert (loaded garbled_entry = Raised "'utf-8' codec can't decode byte 0xff")
    as L by reflexivity.
  assert (endswith notes_txt ".pdf" || endswith notes_txt ".txt"
          || endswith notes_txt ".md" = true) as X by (vm_compute; reflexivity).
  assert (fst (is_file_modified abspath_id poly_digest world_notes_garbled
                 notes_txt tracked_notes) = (true, modified)) as Cm
    by (vm_compute; reflexivity).
  assert (fst (is_file_modified abspath_id poly_digest world_notes_garbled
                 notes_txt tracked_notes) <> (false, unchanged)) as C
    by (rewrite Cm; discriminate).
  split; [exact V|]. split; [exact H|]. split; [exact L|]. split; [exact X|].
  split; [exact Cm|].
  destruct (index_single_file_load_failure abspath_id poly_digest
              (fixed_splitter 12) world_notes_garbled notes_txt garbled_entry
              _ true tracked_notes V H L X C) as (R & (M & K & _) & _).
  split; [exact R|]. split; [exact M|]. split; [exact K|].
  vm_compute. reflexivity.
Defined.

Lemma index_single_file_indexes_witness :
  fst (validate_file_path world_notes_edited notes_txt tracked_notes) = true /\
  fs world_notes_edited !! notes_txt
    = Some (text_file notes_txt edited_content 200) /\
  loaded (text_file notes_txt edited_content 200)
    = Returned [text_document notes_txt edited_content] /\
  [text_document notes_txt edited_content] <> [] /\
  fixed_splitter 12 [text_document notes_txt edited_content] <> [] /\
  endswith notes_txt ".pdf" || endswith notes_txt ".txt"
    || endswith notes_txt ".md" = true /\
  meta_fault world_notes_edited = None /\
  vec_fault world_notes_edited = None /\
  fst (is_file_modified abspath_id poly_digest world_notes_edited notes_txt
         tracked_notes) <> (false, unchanged) /\
  fst (run_file world_notes_edited notes_txt tracked_notes) = (true, 4) /\
  chunk_count <$> meta (snd (run_file world_notes_edited notes_txt
                               tracked_notes)) !! notes_id = Some (Some 4) /\
  length (chunks_of notes_id
            (snd (run_file world_notes_edited notes_txt tracked_notes))) = 7.
Proof.
  assert (fst (validate_file_path world_notes_edited notes_txt tracked_notes)
          = true) as V by (vm_compute; reflexivity).
  assert (fs world_notes_edited !! notes_txt
          = Some (text_file notes_txt edited_content 200)) as H
    by (vm_compute; reflexivity).
  assert (loaded (text_file notes_txt edited_content 200)
          = Returned [text_document notes_txt edited_content]) as L
    by reflexivity.
  assert ([text_document notes_txt edited_content] <> []) as D by discriminate.
  assert (fixed_splitter 12 [text_document notes_txt edited_content] <> [])
    as NE by (vm_compute; discriminate).
  assert (endswith notes_txt ".pdf" || endswith notes_txt ".txt"
          || endswith notes_txt ".md" = true) as X by (vm_compute; reflexivity).
  assert (meta_fault world_notes_edited = None) as Fm by reflexivity.
  assert (vec_fault world_notes_edited = None) as Fv by reflexivity.
  assert (fst (is_file_modified abspath_id poly_digest world_notes_edited
                 notes_txt tracked_notes) <> (false, unchanged)) as C
    by (vm_compute; discriminate).
  repeat (split; [assumption|]).
  destruct (index_single_file_indexes abspath_id poly_digest
              (fixed_splitter 12) world_notes_edited notes_txt _ _
              tracked_notes V H L D NE X Fm Fv C) as (R & Rc & _ & K & _).
  split; [|split].
  - unfold run_file. rewrite R. vm_compute. reflexivity.
  - unfold run_file, notes_id. rewrite Rc. vm_compute. reflexivity.
  - unfold run_file, notes_id. rewrite K. vm_compute. reflexivity.
Defined.

(** ** Directory passes *)

(** The continuation of a bind may be entered without knowing anything
    about what ran before *)
Lemma wp_skip {A B} (c : M A) (k : A -> M B) s Q :
  (forall a s', wp (k a) s' Q) -> wp (c ≫= k) s Q.
Proof. intros H. apply wp_bind. unfold wp at 1. apply H. Qed.

Lemma dict_set_all {V} (P : V -> Prop) k v (d : list (string * V)) :
  P v -> Forall (fun x => P (snd x)) d ->
  Forall (fun x => P (snd x)) (dict_set k v d).
Proof.
  intros Hv. induction 1 as [|[k' v'] d Hx Hd IH]; simpl.
  - by repeat constructor.
  - destruct (String.eqb k k'); constructor; done.
Qed.

Lemma with_status_none st (file_status : list (string * Status)) :
  Forall (fun x => snd x <> st) file_status -> with_status st file_status = [].
Proof.
  intros H. unfold with_status.
  rewrite (filter_none (fun x => bool_decide (snd x = st))); [done|].
  eapply Forall_impl; [exact H|]. intros x N. by apply bool_decide_eq_false.
Qed.

Section DirectoryPass.

Variable abspath : string -> string.
Variable md5 : string -> N.
Variable split_documents : list Document -> list Document.
Variable w : World.

Local Abbreviation classify := (is_file_modified abspath md5 w).
Local Abbreviation pass :=
  (index_documents_from_directory abspath md5 split_documents w).

(** Classifying files that are all unchanged gives a dictionary whose
    values are all [unchanged] *)
Lemma wp_get_modified_files_unchanged l acc s0 s :
  same_stores s0 s ->
  (forall p, p ∈ l -> fst (classify p s0) = (false, unchanged)) ->
  Forall (fun x => snd x = unchanged) acc ->
  wp (get_modified_files_loop abspath md5 w l acc) s
    (fun r s' => Forall (fun x => snd x = unchanged) r /\ same_stores s0 s').
Proof.
  revert acc s. induction l as [|p l IH]; intros acc s K U A; simpl.
  - by apply wp_ret.
  - assert (fst (classify p s0) = (false, unchanged)) as C
      by (apply U; by left).
    destruct (is_file_modified_unchanged_inv abspath md5 w p s0 C)
      as (e & _ & H & _).
    unfold exists_path. rewrite H, bool_decide_eq_true_2 by by eexists.
    apply wp_bind. eapply wp_mono; [by apply (wp_classify abspath md5 w p s0)|].
    intros r s1 [-> K1]. rewrite C. cbn [snd].
    apply IH; [done| |].
    + intros q Hq. apply U. by right.
    + by apply (dict_set_all (fun st => st = unchanged)).
Qed.

Lemma validate_directory_path_state d s s' :
  fst (validate_directory_path w d s') = fst (validate_directory_path w d s).
Proof.
  unfold validate_directory_path. repeat (case_match; try (simpl; done)).
Qed.

Lemma wp_validate_directory_path d s :
  wp (validate_directory_path w d) s
    (fun a s' => a = fst (validate_directory_path w d s) /\ same_stores s s').
Proof. apply wp_read_only. intros P. apply keeps_validate_directory_path. Qed.

(** X14. A pass with nothing to do: when the directory is valid, has
    candidates, and every candidate is classified [unchanged], a pass
    without [force_reindex] answers [True] and leaves records, chunks and id
    supply exactly as they were. *)
Theorem index_documents_from_directory_up_to_date d s :
  fst (validate_directory_path w d s) = true ->
  candidate_files w d <> [] ->
  (forall p, p ∈ candidate_files w d ->
     fst (classify p s) = (false, unchanged)) ->
  let r := pass d false s in
  fst r = true /\ same_stores s (snd r) /\
  happened (EPrint Success "✅ All files are up to date, nothing to index!")
    (snd r) = true.
Proof.
  intros V NE U r. subst r.
  change (wp (pass d false) s
            (fun a s' =>
               a = true /\ same_stores s s' /\
               happened
                 (EPrint Success
                    "✅ All files are up to date, nothing to index!") s'
               = true)).
  unfold index_documents_from_directory. fold (candidate_files w d).
  apply wp_bind, wp_emit.
  apply wp_bind. eapply wp_mono; [apply wp_validate_directory_path|].
  intros a s1 [-> K1].
  rewrite (validate_directory_path_state d s), V. cbn [negb].
  destruct (candidate_files w d) as [|p0 l0] eqn:E; [done|].
  apply wp_bind, wp_emit.
  apply wp_bind. eapply wp_mono.
  { apply (wp_get_modified_files_unchanged (p0 :: l0) [] s); [|done|done].
    eapply same_stores_trans; [|apply same_stores_log].
    eapply same_stores_trans; [|exact K1]. apply same_stores_log. }
  intros file_status s2 [A K2].
  rewrite (with_status_none new), (with_status_none modified);
    [| eapply Forall_impl; [exact A|]; by intros x -> ..].
  do 3 (apply wp_bind, wp_emit).
  apply wp_bind, wp_bind.
  eapply (wp_mono _ _ (fun _ s' => same_stores s s')).
  { destruct (with_status unchanged file_status);
      [by apply wp_ret | by apply wp_emit]. }
  intros _ s3 K3. apply wp_ret. cbn [app].
  apply wp_bind, wp_emit, wp_ret.
  split; [done|]. split; [done|].
  unfold happened, log_events. cbn [trace].
  apply bool_decide_eq_true. apply elem_of_app. right. by left.
Qed.

(** X15. A pass answers [False] only when the directory is not valid or has
    no candidate file, and then records, chunks and id supply are exactly as
    they were. *)
Theorem index_documents_from_directory_rejects d force s :
  fst (pass d force s) = false ->
  (fst (validate_directory_path w d s) = false \/ candidate_files w d = []) /\
  same_stores s (snd (pass d force s)).
Proof.
  change (wp (pass d force) s
            (fun a s' =>
               a = false ->
               (fst (validate_directory_path w d s) = false
                \/ candidate_files w d = []) /\
               same_stores s s')).
  unfold index_documents_from_directory. fold (candidate_files w d).
  apply wp_bind, wp_emit.
  apply wp_bind. eapply wp_mono; [apply wp_validate_directory_path|].
  intros a s1 [-> K1]. rewrite (validate_directory_path_state d s).
  destruct (fst (validate_directory_path w d s)) eqn:V; cbn [negb].
  2: { apply wp_ret. intros _. split; [by left|].
       eapply same_stores_trans; [|exact K1]. apply same_stores_log. }
  destruct (candidate_files w d) as [|p0 l0] eqn:E.
  { apply wp_bind, wp_emit, wp_ret. intros _. split; [by right|].
    eapply same_stores_trans; [|apply same_stores_log].
    eapply same_stores_trans; [|exact K1]. apply same_stores_log. }
  repeat first
    [ apply wp_skip; intros ? ?
    | by apply wp_ret
    | match goal with
      | |- wp (match ?x with _ => _ end) _ _ => destruct x
      end ].
Qed.

End DirectoryPass.

(** ** Cleaning up the records of deleted files *)

Section Cleanup.

Variable abspath : string -> string.
Variable w : World.

Lemma meta_delete_ok id s :
  meta_fault w = None ->
  meta_delete w id s =
    (Returned tt, with_meta s (delete id (meta s)) [EMetaDelete id]).
Proof.
  intros F. unfold meta_delete, meta_call, mbind, M_bind, bind. by rewrite F.
Qed.

(** What the loop does to the metadata collection, one record at a time *)
Lemma cleanup_loop_run existing l deleted s :
  meta_fault w = None ->
  meta (snd (cleanup_loop w existing l deleted s)) =
    fold_left
      (fun m md =>
         if bool_decide (file_path md ∈ existing) then m
         else delete (file_id md) m) l (meta s) /\
  fst (cleanup_loop w existing l deleted s) =
    (deleted ++
     map file_path
       (List.filter
          (fun md => negb (bool_decide (file_path md ∈ existing))) l))%list.
Proof.
  intros F. revert deleted s.
  induction l as [|md l IH]; intros deleted s; simpl.
  - by rewrite app_nil_r.
  - destruct (bool_decide (file_path md ∈ existing)); simpl; [apply IH|].
    rewrite (bind_run _ _ _ _ _ (meta_delete_ok (file_id md) s F)).
    unfold print_info.
    rewrite (bind_run _ _ _ tt
               (log_events (with_meta s (delete (file_id md) (meta s))
                              [EMetaDelete (file_id md)])
                  [EPrint Info ("Removed deleted file: " ++ file_name md)]))
      by done.
    match goal with
    | |- context [cleanup_loop w existing l ?d ?s'] =>
        destruct (IH d s') as [I1 I2]
    end.
    cbn [log_events with_meta meta] in I1. rewrite I1, I2.
    by rewrite <- app_assoc.
Qed.

Lemma cleanup_fold_lookup (existing : list string) (l : list Metadata)
    (m : gmap string Metadata) id :
  fold_left
    (fun m md =>
       if bool_decide (file_path md ∈ existing) then m
       else delete (file_id md) m) l m !! id
  = if bool_decide
         (id ∈ map file_id
                 (List.filter
                    (fun md => negb (bool_decide (file_path md ∈ existing))) l))
    then None else m !! id.
Proof.
  revert m. induction l as [|md l IH]; intros m; simpl.
  - done.
  - rewrite IH. destruct (bool_decide (file_path md ∈ existing)); simpl;
      [done|].
    destruct (decide (id = file_id md)) as [->|N].
    + rewrite lookup_delete_eq.
      rewrite (bool_decide_eq_true_2 (file_id md ∈ file_id md :: _));
        [|by left].
      by case_bool_decide.
    + rewrite lookup_delete_ne by done.
      case_bool_decide as B1; case_bool_decide as B2; try done.
      * exfalso. apply B2. by right.
      * exfalso. apply elem_of_cons in B2 as [?|?]; done.
Qed.

(** X16. What the clean-up removes: with a healthy metadata store, after
    [cleanup_deleted_files] a record is still present exactly when its path
    is among the absolute paths of the files given; every other record is
    gone, and the paths returned are those of the records removed. *)
Theorem cleanup_deleted_files_exact existing s :
  meta_fault w = None ->
  let r := cleanup_deleted_files abspath w existing s in
  (forall id,
     meta (snd r) !! id =
       match meta s !! id with
       | Some md =>
           if bool_decide (file_path md ∈ map abspath existing) then Some md
           else None
       | None => None
       end) /\
  (forall path,
     path ∈ fst r <->
     exists id md,
       meta s !! id = Some md /\ file_path md = path /\
       path ∉ map abspath existing).
Proof.
  intros F r. subst r. unfold cleanup_deleted_files.
  assert (get_all_tracked_files w s =
          (map (fun kv => with_file_id (snd kv) (fst kv))
             (map_to_list (meta s)),
           log_events s [EMetaGetAll])) as G.
  { unfold get_all_tracked_files, meta_get_all, meta_call.
    unfold mbind, M_bind, bind, emit, get_meta, ret. by rewrite F. }
  rewrite (bind_run _ _ _ _ _ G).
  set (l := map (fun kv => with_file_id (snd kv) (fst kv))
              (map_to_list (meta s))).
  destruct (cleanup_loop_run (map abspath existing) l []
              (log_events s [EMetaGetAll]) F) as [E1 E2].
  rewrite E1, E2. cbn [log_events meta app]. clear E1 E2 G.
  assert (forall id md,
            md ∈ l /\ file_id md = id <->
            exists md0, meta s !! id = Some md0 /\ md = with_file_id md0 id)
    as Hl.
  { intros id md. subst l. split.
    - intros [Hin <-]. apply list_elem_of_fmap in Hin as ([k md0] & -> & Hk).
      apply elem_of_map_to_list in Hk. by exists md0.
    - intros (md0 & L & ->). split; [|done].
      apply list_elem_of_fmap. exists (id, md0). split; [done|].
      by apply elem_of_map_to_list. }
  split.
  - intros id. rewrite cleanup_fold_lookup.
    destruct (meta s !! id) as [md0|] eqn:L.
    + destruct (bool_decide (file_path md0 ∈ map abspath existing)) eqn:B.
      * rewrite bool_decide_eq_false_2; [done|]. intros Hin.
        apply list_elem_of_fmap in Hin as (md & E & Hin).
        apply list_elem_of_In, filter_In in Hin as [Hin K].
        apply list_elem_of_In in Hin.
        destruct (proj1 (Hl id md)) as (md1 & L1 & ->); [done|].
        assert (md1 = md0) as -> by congruence.
        cbn [with_file_id file_path] in K. by rewrite B in K.
      * rewrite bool_decide_eq_true_2; [done|].
        apply list_elem_of_fmap. exists (with_file_id md0 id).
        split; [done|]. apply list_elem_of_In, filter_In. split.
        -- apply list_elem_of_In. apply (Hl id). by exists md0.
        -- cbn [with_file_id file_path]. by rewrite B.
    + by case_bool_decide.
  - intros path. split.
    + intros Hin. apply list_elem_of_fmap in Hin as (md & -> & Hin).
      apply list_elem_of_In, filter_In in Hin as [Hin K].
      apply list_elem_of_In in Hin.
      destruct (proj1 (Hl (file_id md) md)) as (md0 & L & E); [done|].
      exists (file_id md), md0. split; [done|].
      rewrite E in K |- *. cbn [with_file_id file_path] in *.
      split; [done|]. apply negb_true_iff, bool_decide_eq_false in K. done.
    + intros (id & md0 & L & <- & N).
      apply list_elem_of_fmap. exists (with_file_id md0 id).
      split; [done|]. apply list_elem_of_In, filter_In. split.
      * apply list_elem_of_In. apply (Hl id). by exists md0.
      * cbn [with_file_id file_path]. apply negb_true_iff.
        by apply bool_decide_eq_false.
Qed.

End Cleanup.

(** ** Statistics and resets *)

Lemma dict_get_set_eq k v (d : list (string * nat)) :
  dict_get k (dict_set k v d) = v.
Proof.
  induction d as [|[k' v'] d IH]; simpl.
  - by rewrite String.eqb_refl.
  - destruct (String.eqb k k') eqn:E; simpl.
    + by rewrite String.eqb_refl.
    + by rewrite E.
Qed.

Lemma dict_get_set_ne k k' v (d : list (string * nat)) :
  k' <> k -> dict_get k' (dict_set k v d) = dict_get k' d.
Proof.
  intros N. induction d as [|[k0 v0] d IH]; simpl.
  - by rewrite (proj2 (String.eqb_neq k' k) N).
  - destruct (String.eqb k k0) eqn:E; simpl.
    + apply String.eqb_eq in E as <-.
      by rewrite (proj2 (String.eqb_neq k' k) N).
    + by rewrite IH.
Qed.

Lemma dict_set_increment_sum k (d : list (string * nat)) :
  foldr Nat.add 0 (map snd (dict_set k (dict_get k d + 1) d))
  = foldr Nat.add 0 (map snd d) + 1.
Proof.
  induction d as [|[k' v'] d IH]; simpl; [done|].
  destruct (String.eqb k k'); simpl; lia.
Qed.

Lemma count_extensions_sum l acc :
  foldr Nat.add 0 (map snd (count_extensions l acc))
  = foldr Nat.add 0 (map snd acc) + length l.
Proof.
  revert acc. induction l as [|f l IH]; intros acc; simpl; [lia|].
  rewrite IH, dict_set_increment_sum. lia.
Qed.

Lemma count_extensions_get ext l acc :
  dict_get ext (count_extensions l acc)
  = dict_get ext acc
    + length (List.filter (fun f => String.eqb (extension f) ext) l).
Proof.
  revert acc. induction l as [|f l IH]; intros acc; simpl; [lia|].
  rewrite IH. destruct (String.eqb (extension f) ext) eqn:E; simpl.
  - apply String.eqb_eq in E as <-. rewrite dict_get_set_eq. lia.
  - apply String.eqb_neq in E. rewrite dict_get_set_ne by congruence. lia.
Qed.

Lemma remove_dups_shorter `{EqDecision A} (l : list A) :
  length (remove_dups l) <= length l.
Proof.
  induction l as [|x l IH]; simpl; [done|].
  case_match; simpl; [apply le_S, IH | apply le_n_S, IH].
Qed.

Lemma omap_shorter {A B} (f : A -> option B) (l : list A) :
  length (omap f l) <= length l.
Proof.
  induction l as [|x l IH]; simpl; [done|].
  destruct (f x); simpl; [apply le_n_S, IH | apply le_S, IH].
Qed.

Section Maintenance.

Variable abspath : string -> string.
Variable md5 : string -> N.
Variable w : World.

(** X17. The tracking statistics: [total_files] is the number of records
    read, the counts of the extension histogram add up to it, and the count
    of each extension is the number of records with that extension.  With a
    healthy store the records read are all the records; with a faulty one
    there are none.  Neither collection changes. *)
Theorem get_tracking_stats_counts s :
  let st := fst (get_tracking_stats w s) in
  let tracked := fst (get_all_tracked_files w s) in
  total_files st = length tracked /\
  foldr Nat.add 0 (map snd (extensions st)) = total_files st /\
  (forall ext,
     dict_get ext (extensions st)
     = length (List.filter (fun f => String.eqb (extension f) ext) tracked)) /\
  length tracked =
    match meta_fault w with
    | None => length (map_to_list (meta s))
    | Some _ => 0
    end /\
  same_stores s (snd (get_tracking_stats w s)).
Proof.
  intros st tracked. subst st tracked.
  unfold get_tracking_stats, mbind, M_bind, bind, ret.
  destruct (get_all_tracked_files w s) as [tracked s1] eqn:G.
  cbn [fst snd total_files extensions].
  split; [done|]. split; [by rewrite count_extensions_sum|].
  split; [intros ext; by rewrite count_extensions_get|].
  unfold get_all_tracked_files, meta_get_all, meta_call in G.
  unfold mbind, M_bind, bind, emit, get_meta, print_warning, ret in G.
  destruct (meta_fault w); injection G as <- <-.
  - done.
  - by rewrite length_map.
Qed.

(** X18. A full reset: with both stores healthy [clear_index] answers
    [True] and leaves both collections empty, so [count()] is 0, no file has
    a chunk count, and every existing file is classified [new] again. *)
Theorem clear_index_resets s :
  meta_fault w = None -> vec_fault w = None ->
  let r := clear_index w s in
  fst r = Returned true /\
  vectors (snd r) = [] /\ count (snd r) = 0 /\ meta (snd r) = ∅ /\
  (forall p, fst (get_file_chunk_count abspath md5 w p (snd r)) = 0) /\
  (forall p e, fs w !! p = Some e ->
     fst (is_file_modified abspath md5 w p (snd r)) = (true, new)).
Proof.
  intros Fm Fv r. subst r.
  unfold clear_index, clear_index_with, clear_collection.
  unfold mbind, M_bind, bind, set_vectors, set_meta, print, print_info,
    print_success, emit, ret.
  rewrite Fm, Fv. cbn [fst snd vectors meta count length].
  repeat split.
  - intros p. rewrite get_file_chunk_count_run by done.
    cbn [fst meta]. by rewrite lookup_empty.
  - intros p e H.
    by rewrite (is_file_modified_untracked abspath md5 w p e).
Qed.

(** X19. A reset whose file tracking part fails, with a healthy document
    store: [clear_index] still answers [True] and prints its success
    message, after a warning, and the document collection is empty.  The
    [try] block can fail at either of its two calls.  When dropping the
    metadata collection raises, every record is still there; when the
    collection was dropped and creating it again raises, the records are
    gone. *)
Theorem clear_index_fails_quietly recreate msg s :
  vec_fault w = None ->
  meta_fault w = Some msg \/ (meta_fault w = None /\ recreate = Raised msg) ->
  let r := clear_index_with w recreate s in
  fst r = Returned true /\
  vectors (snd r) = [] /\
  (meta_fault w = Some msg -> meta (snd r) = meta s) /\
  (meta_fault w = None -> meta (snd r) = ∅) /\
  happened (EPrint Warning ("Error clearing file tracking: " ++ msg)) (snd r)
    = true /\
  happened (EPrint Success "✅ Cleared all indexed documents!") (snd r) = true.
Proof.
  intros Fv Fm r. subst r. unfold clear_index_with, clear_collection.
  unfold mbind, M_bind, bind, set_vectors, set_meta, print, print_warning,
    print_success, emit, ret.
  rewrite Fv.
  destruct Fm as [Fm | [Fm ->]]; rewrite Fm;
    cbn [fst snd vectors meta]; unfold happened; cbn [trace];
    (split; [done|]); (split; [done|]);
    (split; [done|]); (split; [done|]);
    split; apply bool_decide_eq_true; rewrite !elem_of_app.
  - left. right. by left.
  - right. by left.
  - left. right. by left.
  - right. by left.
Qed.

(** X20. The collection report: with a healthy document store
    [get_collection_info] reports the number of chunks, and a number of
    files that is at most 100 and at most the number of chunks, since only
    the first 100 entries are sampled; nothing is changed. *)
Theorem get_collection_info_bounds s :
  vec_fault w = None ->
  exists info,
    get_collection_info w s = (Returned info, s) /\
    info_count info = count s /\
    unique_files info <= Nat.min 100 (count s).
Proof.
  intros F. unfold get_collection_info.
  unfold mbind, M_bind, bind, get_vectors, ret. rewrite F.
  eexists. split; [done|]. cbn [info_count unique_files]. split; [done|].
  etrans; [apply remove_dups_shorter|]. etrans; [apply omap_shorter|].
  rewrite length_take. unfold count. lia.
Qed.

End Maintenance.

(** ** Runs of passes, clean-ups and resets *)

Lemma index_documents_from_directory_up_to_date_witness :
  fst (validate_directory_path world_notes (Some "/docs") tracked_notes) = true
  /\
  candidate_files world_notes (Some "/docs") <> [] /\
  (forall p, p ∈ candidate_files world_notes (Some "/docs") ->
     fst (is_file_modified abspath_id poly_digest world_notes p tracked_notes)
       = (false, unchanged)) /\
  fst (run_dir world_notes false tracked_notes) = true /\
  vectors (snd (run_dir world_notes false tracked_notes))
    = vectors tracked_notes.
Proof.
  assert (candidate_files world_notes (Some "/docs") = [notes_txt]) as E
    by (vm_compute; reflexivity).
  assert (fst (validate_directory_path world_notes (Some "/docs") tracked_notes)
          = true) as V by (vm_compute; reflexivity).
  assert (candidate_files world_notes (Some "/docs") <> []) as NE
    by (rewrite E; discriminate).
  assert (forall p, p ∈ candidate_files world_notes (Some "/docs") ->
            fst (is_file_modified abspath_id poly_digest world_notes p
                   tracked_notes) = (false, unchanged)) as U.
  { rewrite E. intros p Hp. apply list_elem_of_singleton in Hp as ->.
    vm_compute. reflexivity. }
  split; [exact V|]. split; [exact NE|]. split; [exact U|].
  destruct (index_documents_from_directory_up_to_date abspath_id poly_digest
              (fixed_splitter 12) world_notes (Some "/docs") tracked_notes
              V NE U) as (R & (_ & K & _) & _).
  split; [exact R | exact K].
Defined.

Lemma index_documents_from_directory_rejects_witness :
  fst (index_documents_from_directory abspath_id poly_digest
         (fixed_splitter 12) world_notes (Some "/nowhere") true tracked_notes)
    = false /\
  same_stores tracked_notes
    (snd (index_documents_from_directory abspath_id poly_digest
            (fixed_splitter 12) world_notes (Some "/nowhere") true
            tracked_notes)).
Proof.
  assert (fst (index_documents_from_directory abspath_id poly_digest
                 (fixed_splitter 12) world_notes (Some "/nowhere") true
                 tracked_notes) = false) as H by (vm_compute; reflexivity).
  split; [exact H|].
  exact (proj2 (index_documents_from_directory_rejects abspath_id poly_digest
                  (fixed_splitter 12) world_notes (Some "/nowhere") true
                  tracked_notes H)).
Defined.

Lemma cleanup_deleted_files_exact_witness :
  meta_fault world_guide_only = None /\
  meta (snd (cleanup_deleted_files abspath_id world_guide_only [guide_md]
               tracked_both)) !! notes_id = None /\
  chunk_count <$>
    meta (snd (cleanup_deleted_files abspath_id world_guide_only [guide_md]
                 tracked_both)) !! guide_id = Some (Some 2).
Proof.
  assert (meta_fault world_guide_only = None) as F by reflexivity.
  split; [exact F|].
  destruct (cleanup_deleted_files_exact abspath_id world_guide_only [guide_md]
              tracked_both F) as [L _].
  split.
  - rewrite (L notes_id). vm_compute. reflexivity.
  - rewrite (L guide_id). vm_compute. reflexivity.
Defined.

Lemma clear_index_resets_witness :
  meta_fault world_notes = None /\ vec_fault world_notes = None /\
  fst (clear_index world_notes tracked_notes) = Returned true /\
  count (snd (clear_index world_notes tracked_notes)) = 0 /\
  fst (is_file_modified abspath_id poly_digest world_notes notes_txt
         (snd (clear_index world_notes tracked_notes))) = (true, new).
Proof.
  assert (meta_fault world_notes = None) as Fm by reflexivity.
  assert (vec_fault world_notes = None) as Fv by reflexivity.
  split; [exact Fm|]. split; [exact Fv|].
  destruct (clear_index_resets abspath_id poly_digest world_notes
              tracked_notes Fm Fv) as (R & _ & C & _ & _ & N).
  split; [exact R|]. split; [exact C|].
  apply (N notes_txt (text_file notes_txt notes_content 100)). reflexivity.
Defined.

Lemma clear_index_fails_quietly_witness :
  vec_fault world_store_down = None /\
  meta_fault world_store_down = Some "database is locked" /\
  fst (clear_index_with world_store_down (Returned tt) tracked_notes)
    = Returned true /\
  meta (snd (clear_index_with world_store_down (Returned tt) tracked_notes))
    = meta tracked_notes /\
  meta_fault world_notes = None /\
  fst (clear_index_with world_notes (Raised "disk I/O error") tracked_notes)
    = Returned true /\
  meta (snd (clear_index_with world_notes (Raised "disk I/O error")
               tracked_notes)) = ∅ /\
  meta tracked_notes <> ∅.
Proof.
  assert (meta_fault world_store_down = Some "database is locked") as Fm
    by reflexivity.
  assert (vec_fault world_store_down = None) as Fv by reflexivity.
  assert (meta_fault world_notes = None) as Fm' by reflexivity.
  assert (vec_fault world_notes = None) as Fv' by reflexivity.
  split; [exact Fv|]. split; [exact Fm|].
  destruct (clear_index_fails_quietly world_store_down (Returned tt)
              "database is locked" tracked_notes Fv (or_introl Fm))
    as (R & _ & M & _).
  destruct (clear_index_fails_quietly world_notes (Raised "disk I/O error")
              "disk I/O error" tracked_notes Fv'
              (or_intror (conj Fm' eq_refl)))
    as (R' & _ & _ & M' & _).
  split; [exact R|]. split; [exact (M Fm)|]. split; [exact Fm'|].
  split; [exact R'|]. split; [exact (M' Fm')|].
  intros E. apply (f_equal (fun m => m !! notes_id)) in E.
  vm_compute in E. discriminate E.
Defined.

Lemma get_collection_info_bounds_witness :
  vec_fault world_notes = None /\
  exists info,
    get_collection_info world_notes tracked_notes = (Returned info, tracked_notes)
    /\ info_count info = 3 /\ unique_files info <= 3.
Proof.
  assert (vec_fault world_notes = None) as F by reflexivity.
  split; [exact F|].
  destruct (get_collection_info_bounds world_notes tracked_notes F)
    as (info & E & C & U).
  exists info. split; [exact E|]. split; [exact C | exact U].
Defined.

(** ** Text utilities *)

Lemma string_length_append (a b : string) :
  String.length (a ++ b) = String.length a + String.length b.
Proof. induction a as [|c a IH]; simpl; [done|]. by rewrite IH. Qed.

Lemma substring_0_length n (s : string) :
  String.length (substring 0 n s) = Nat.min n (String.length s).
Proof.
  revert n. induction s as [|c s IH]; intros [|n]; simpl; try done.
  by rewrite IH.
Qed.

(** X21. [truncate_text] keeps its promise on ASCII text when the suffix
    fits: if the suffix is at most [max_length] long, the result is at most
    [max_length] long; a text that fits is returned as it is, and a longer
    one is cut to exactly [max_length] characters that end with the
    suffix. *)
Theorem truncate_text_bound text max_length suffix :
  ascii_text text = true -> ascii_text suffix = true ->
  String.length suffix <= max_length ->
  let r := truncate_text text max_length suffix in
  String.length r <= max_length /\
  (String.length text <= max_length -> r = text) /\
  (max_length < String.length text ->
   String.length r = max_length /\
   r = substring 0 (max_length - String.length suffix) text ++ suffix).
Proof.
  intros _ _ L r. subst r. unfold truncate_text, slice_to.
  destruct (Nat.leb_spec (String.length text) max_length) as [H|H].
  - split; [done|]. split; [done|]. lia.
  - rewrite (proj2 (Z.leb_le 0 _)) by lia.
    replace (Z.to_nat (Z.of_nat max_length - Z.of_nat (String.length suffix)))
      with (max_length - String.length suffix) by lia.
    rewrite string_length_append, substring_0_length.
    split; [lia|]. split; [lia|]. intros _. split; [lia|done].
Qed.

(** *** [sanitize_filename] *)

Lemma replace_invalid_valid s :
  string_all (fun c => negb (invalid_filename_char c)) (replace_invalid s)
  = true.
Proof.
  induction s as [|c s IH]; simpl; [done|]. rewrite IH, andb_true_r.
  by destruct (invalid_filename_char c) eqn:E; [|rewrite E].
Qed.

Lemma collapse_underscores_all f s :
  string_all f s = true -> string_all f (collapse_underscores s) = true.
Proof.
  induction s as [|c s IH]; [done|]. intros H.
  apply andb_true_iff in H as [Hc Hs]. specialize (IH Hs).
  cbn [collapse_underscores].
  destruct (Ascii.eqb c underscore); [destruct s as [|c' s']|];
    [by simpl; rewrite Hc | | by simpl; rewrite Hc, IH].
  destruct (Ascii.eqb c' underscore); [done|].
  cbn [string_all]. by rewrite Hc, IH.
Qed.

Lemma lstrip_all f s : string_all f s = true -> string_all f (lstrip s) = true.
Proof.
  induction s as [|c s IH]; [done|]. intros H. simpl.
  destruct (strip_char c); [|done].
  apply andb_true_iff in H as [_ Hs]. by apply IH.
Qed.

Lemma rstrip_all f s : string_all f s = true -> string_all f (rstrip s) = true.
Proof.
  induction s as [|c s IH]; [done|]. intros H.
  apply andb_true_iff in H as [Hc Hs]. specialize (IH Hs). simpl.
  destruct (rstrip s) as [|c' r'] eqn:E.
  - destruct (strip_char c); simpl; [done|]. by rewrite Hc.
  - cbn [string_all] in *. by rewrite Hc, IH.
Qed.

Lemma no_double_cons a r :
  no_double_underscore (String a r)
  = negb (Ascii.eqb a underscore && head_is_underscore r)
    && no_double_underscore r.
Proof. destruct r; simpl; [by rewrite andb_false_r | done]. Qed.

Lemma collapse_underscores_head s :
  head_is_underscore (collapse_underscores s) = head_is_underscore s.
Proof.
  induction s as [|c s IH]; [done|]. cbn [collapse_underscores].
  destruct (Ascii.eqb c underscore) eqn:E; [|by simpl].
  destruct s as [|c' s']; [by simpl|].
  destruct (Ascii.eqb c' underscore) eqn:E'; [|by simpl].
  rewrite IH. simpl. by rewrite E, E'.
Qed.

Lemma collapse_underscores_no_double s :
  no_double_underscore (collapse_underscores s) = true.
Proof.
  induction s as [|c s IH]; [done|]. cbn [collapse_underscores].
  destruct (Ascii.eqb c underscore) eqn:E.
  - destruct s as [|c' s']; [done|].
    destruct (Ascii.eqb c' underscore) eqn:E'; [done|].
    rewrite no_double_cons, IH, collapse_underscores_head. simpl.
    by rewrite E', andb_false_r.
  - rewrite no_double_cons, IH, E. done.
Qed.

Lemma lstrip_no_double s :
  no_double_underscore s = true -> no_double_underscore (lstrip s) = true.
Proof.
  induction s as [|c s IH]; [done|]. intros H. simpl.
  destruct (strip_char c); [|done]. apply IH.
  rewrite no_double_cons in H. by apply andb_true_iff in H as [_ ?].
Qed.

Lemma rstrip_cons s a t : rstrip s = String a t -> exists t', s = String a t'.
Proof.
  destruct s as [|c s]; [done|]. simpl.
  destruct (rstrip s); [destruct (strip_char c)|]; intros [= <- <-]; eauto.
Qed.

Lemma rstrip_head s :
  rstrip s <> EmptyString ->
  head_is_underscore (rstrip s) = head_is_underscore s
  /\ starts_clean (rstrip s) = starts_clean s.
Proof.
  intros N. destruct (rstrip s) as [|a t] eqn:E; [done|].
  by destruct (rstrip_cons s a t E) as [t' ->].
Qed.

Lemma rstrip_no_double s :
  no_double_underscore s = true -> no_double_underscore (rstrip s) = true.
Proof.
  induction s as [|c s IH]; [done|]. intros H.
  rewrite no_double_cons in H. apply andb_true_iff in H as [Hc Hs].
  specialize (IH Hs). simpl.
  destruct (rstrip s) as [|a t] eqn:E; [by destruct (strip_char c)|].
  rewrite no_double_cons, IH, andb_true_r.
  destruct (rstrip_head s) as [Hh _]; [by rewrite E|]. rewrite E in Hh.
  by rewrite Hh.
Qed.

Lemma lstrip_starts_clean s : starts_clean (lstrip s) = true.
Proof.
  induction s as [|c s IH]; [done|]. simpl.
  destruct (strip_char c) eqn:E; [done|]. simpl. by rewrite E.
Qed.

Lemma rstrip_starts_clean s :
  starts_clean s = true -> starts_clean (rstrip s) = true.
Proof.
  intros H. destruct (rstrip s) as [|a t] eqn:E; [done|].
  destruct (rstrip_head s) as [_ Hc]; [by rewrite E|].
  rewrite E in Hc. by rewrite Hc.
Qed.

Lemma rstrip_ends_clean s : ends_clean (rstrip s) = true.
Proof.
  induction s as [|c s IH]; [done|]. simpl.
  destruct (rstrip s) as [|a t] eqn:E.
  - destruct (strip_char c) eqn:Ec; [done|]. simpl. by rewrite Ec.
  - done.
Qed.

(** The four steps leave a name alone that is already clean *)
Lemma replace_invalid_id s :
  string_all (fun c => negb (invalid_filename_char c)) s = true ->
  replace_invalid s = s.
Proof.
  induction s as [|c s IH]; [done|]. intros H.
  apply andb_true_iff in H as [Hc Hs]. simpl. rewrite (IH Hs).
  by destruct (invalid_filename_char c).
Qed.

Lemma collapse_underscores_id s :
  no_double_underscore s = true -> collapse_underscores s = s.
Proof.
  induction s as [|c s IH]; [done|]. intros H.
  rewrite no_double_cons in H. apply andb_true_iff in H as [Hc Hs].
  cbn [collapse_underscores]. rewrite (IH Hs).
  destruct (Ascii.eqb c underscore); [|done].
  destruct s as [|c' s']; [done|]. simpl in Hc.
  by destruct (Ascii.eqb c' underscore).
Qed.

Lemma lstrip_id s : starts_clean s = true -> lstrip s = s.
Proof. destruct s as [|c s]; [done|]. simpl. by destruct (strip_char c). Qed.

Lemma rstrip_id s : ends_clean s = true -> rstrip s = s.
Proof.
  induction s as [|c s IH]; [done|]. intros H. simpl.
  destruct s as [|c' s'].
  - simpl in *. by destruct (strip_char c).
  - rewrite IH by done. done.
Qed.

Lemma sanitize_filename_cases name :
  let t :=
    strip_underscores_spaces (collapse_underscores (replace_invalid name)) in
  (t = EmptyString /\ sanitize_filename name = "untitled")
  \/ (t <> EmptyString /\ sanitize_filename name = t).
Proof.
  intros t. unfold sanitize_filename. fold t.
  destruct t; [by left | by right].
Qed.

(** X22. What [sanitize_filename] returns is never empty, contains none of
    the characters that are invalid in file names, has no two underscores
    in a row, and neither starts nor ends with an underscore or a space. *)
Theorem sanitize_filename_clean name :
  let r := sanitize_filename name in
  r <> EmptyString /\
  string_all (fun c => negb (invalid_filename_char c)) r = true /\
  no_double_underscore r = true /\
  starts_clean r = true /\ ends_clean r = true.
Proof.
  intros r. subst r.
  destruct (sanitize_filename_cases name) as [[_ ->]|[N ->]];
    [by repeat split|].
  split; [done|]. unfold strip_underscores_spaces.
  split; [|split; [|split]].
  - apply rstrip_all, lstrip_all, collapse_underscores_all,
      replace_invalid_valid.
  - apply rstrip_no_double, lstrip_no_double, collapse_underscores_no_double.
  - apply rstrip_starts_clean, lstrip_starts_clean.
  - apply rstrip_ends_clean.
Qed.

(** X23. [sanitize_filename] is idempotent: a sanitized name is sanitized to
    itself. *)
Theorem sanitize_filename_idempotent name :
  sanitize_filename (sanitize_filename name) = sanitize_filename name.
Proof.
  assert (forall r,
            r <> EmptyString ->
            string_all (fun c => negb (invalid_filename_char c)) r = true ->
            no_double_underscore r = true ->
            starts_clean r = true -> ends_clean r = true ->
            sanitize_filename r = r) as Fix.
  { intros r N A D S E. unfold sanitize_filename, strip_underscores_spaces.
    rewrite (replace_invalid_id r A), (collapse_underscores_id r D),
      (lstrip_id r S), (rstrip_id r E).
    by destruct r. }
  destruct (sanitize_filename_cases name) as [[_ ->]|[N ->]]; [done|].
  unfold strip_underscores_spaces in *. apply Fix; [done|..].
  - apply rstrip_all, lstrip_all, collapse_underscores_all,
      replace_invalid_valid.
  - apply rstrip_no_double, lstrip_no_double, collapse_underscores_no_double.
  - apply rstrip_starts_clean, lstrip_starts_clean.
  - apply rstrip_ends_clean.
Qed.

(** ** Runs of the text utilities *)

Lemma truncate_text_bound_witness :
  ascii_text "The quick brown fox" = true /\ ascii_text "..." = true /\
  String.length "..." <= 10 /\
  String.length (truncate_text "The quick brown fox" 10 "...") <= 10 /\
  truncate_text "The quick brown fox" 10 "..." = "The qui...".
Proof.
  assert (ascii_text "The quick brown fox" = true) as At by reflexivity.
  assert (ascii_text "..." = true) as As by reflexivity.
  assert (String.length "..." <= 10) as L by (simpl; lia).
  split; [exact At|]. split; [exact As|]. split; [exact L|].
  destruct (truncate_text_bound "The quick brown fox" 10 "..." At As L)
    as (B & _ & T).
  split; [exact B|].
  destruct T as [_ E]; [simpl; lia|]. exact E.
Defined.

(** ** Candidates and the choice of the loader *)




Section Candidates.

Variable abspath : string -> string.
Variable md5 : string -> N.
Variable split_documents : list Document -> list Document.
Variable w : World.



Lemma validate_file_path_exists p s :
  fst (validate_file_path w p s) = true -> is_Some (fs w !! p).
Proof.
  unfold validate_file_path, exists_path.
  destruct (is_empty_str p); [done|].
  case_bool_decide; [done|]. simpl. done.
Qed.

(** X25. Validation and loader do not agree on capitals: a path that
    [validate_file_path] accepts (its extension is compared in lower case)
    but that does not end with [.pdf], [.txt] or [.md] as written is turned
    down by [index_single_file], unless it is skipped as [unchanged]: the
    answer is [(False, 0)], "Unsupported file type" is printed last and no
    record is written. *)
Theorem index_single_file_unsupported_spelling p update_tracking s :
  fst (validate_file_path w p s) = true ->
  endswith p ".pdf" || endswith p ".txt" || endswith p ".md" = false ->
  fst (is_file_modified abspath md5 w p s) <> (false, unchanged) ->
  let r := index_single_file abspath md5 split_documents w p update_tracking s
  in
  fst r = (false, 0) /\ meta (snd r) = meta s /\
  exists t, trace (snd r) = (t ++ [EPrint Error "Unsupported file type"])%list.
Proof.
  intros V X C r. subst r.
  change (wp (index_single_file abspath md5 split_documents w p
                update_tracking) s
            (fun a s' =>
               a = (false, 0) /\ meta s' = meta s /\
               exists t,
                 trace s' = (t ++ [EPrint Error "Unsupported file type"])%list)).
  apply orb_false_iff in X as [X Xm]. apply orb_false_iff in X as [Xp Xt].
  destruct (validate_file_path_exists p s V) as [e H].
  unfold index_single_file.
  apply wp_bind. eapply wp_mono; [by apply wp_validate|].
  intros a s0 [-> ->]. cbn [negb].
  apply wp_bind.
  eapply wp_mono; [by apply (wp_classify abspath md5 w p s s)|].
  intros [b st] s1 [E K1]. rewrite Xp, Xt, Xm. cbn [orb].
  destruct (is_file_modified_answers abspath md5 w p e s H) as [A|[A|A]];
    [| |by rewrite A in C]; rewrite A in E; injection E as -> ->;
    cbn [negb andb].
  - apply wp_bind, wp_emit. rewrite bool_decide_eq_false_2 by done.
    apply wp_bind, wp_ret. apply wp_bind, wp_ret.
    apply wp_bind, wp_emit, wp_ret.
    destruct K1 as (M1 & _). unfold log_events. cbn [meta trace].
    split; [done|]. split; [done|]. by eexists.
  - apply wp_bind, wp_emit. rewrite bool_decide_eq_true_2 by done.
    apply wp_bind, wp_bind. eapply wp_mono; [apply wp_remove_documents|].
    intros n s2 (_ & M2 & _). apply wp_emit.
    apply wp_bind, wp_ret. apply wp_bind, wp_emit, wp_ret.
    destruct K1 as (M1 & _). unfold log_events in *. cbn [meta trace] in *.
    split; [done|]. split; [congruence|]. by eexists.
Qed.

End Candidates.

(** ** Runs on a file with a capital extension *)


Lemma index_single_file_unsupported_spelling_witness :
  fst (validate_file_path world_capitals report_pdf empty_store) = true /\
  endswith report_pdf ".pdf" || endswith report_pdf ".txt"
    || endswith report_pdf ".md" = false /\
  fst (is_file_modified abspath_id poly_digest world_capitals report_pdf
         empty_store) <> (false, unchanged) /\
  fst (run_file world_capitals report_pdf empty_store) = (false, 0) /\
  candidate_files world_capitals (Some "/docs") = [].
Proof.
  assert (fst (validate_file_path world_capitals report_pdf empty_store)
          = true) as V by (vm_compute; reflexivity).
  assert (endswith report_pdf ".pdf" || endswith report_pdf ".txt"
          || endswith report_pdf ".md" = false) as X
    by (vm_compute; reflexivity).
  assert (fst (is_file_modified abspath_id poly_digest world_capitals
                 report_pdf empty_store) <> (false, unchanged)) as C
    by (vm_compute; discriminate).
  split; [exact V|]. split; [exact X|]. split; [exact C|].
  split.
  - exact (proj1 (index_single_file_unsupported_spelling abspath_id
                    poly_digest (fixed_splitter 12) world_capitals report_pdf
                    true empty_store V X C)).
  - vm_compute. reflexivity.
Defined.

(** ** A pass leaves nothing to do *)



Section Idempotence.

Variable abspath : string -> string.
Variable md5 : string -> N.
Variable split_documents : list Document -> list Document.
Variable w : World.

Local Abbreviation fid_of p := (generate_file_id abspath md5 p).
Local Abbreviation classify := (is_file_modified abspath md5 w).
Local Abbreviation pass :=
  (index_documents_from_directory abspath md5 split_documents w).








End Idempotence.


(** ** Counting the words of the context *)

Lemma count_words_space b s c t :
  is_space c = true ->
  count_words_from b (s ++ String c t)
    = count_words_from b s + count_words_from false t.
Proof.
  intros H. revert b. induction s as [|a s IH]; intros b; simpl.
  - by rewrite H.
  - destruct (is_space a); rewrite IH; lia.
Qed.

Lemma count_words_solid s t :
  string_all solid s = true ->
  count_words_from true (s ++ t) = count_words_from true t.
Proof.
  induction s as [|a s IH]; simpl; [done|]. intros H.
  apply andb_true_iff in H as [Ha Hs]. unfold solid in Ha.
  apply negb_true_iff in Ha. rewrite Ha. by rewrite IH.
Qed.

Lemma count_words_ends_solid b s c :
  is_space c = false -> 1 <= count_words_from b (s ++ String c "") + (if b then 1 else 0).
Proof.
  intros H. revert b. induction s as [|a s IH]; intros b; simpl.
  - rewrite H. destruct b; simpl; lia.
  - destruct (is_space a).
    + specialize (IH false). simpl in IH. lia.
    + specialize (IH true). destruct b; simpl in *; lia.
Qed.

Lemma pretty_N_go_all (f : ascii -> bool) x s :
  (forall d, f (pretty_N_char d) = true) ->
  string_all f s = true -> string_all f (pretty_N_go x s) = true.
Proof.
  intros D. revert s. induction (N.lt_wf_0 x) as [x _ IH]; intros s H.
  assert (x = 0 \/ 0 < x)%N as [->|P] by lia.
  - by rewrite pretty_N_go_0.
  - rewrite pretty_N_go_step by done. apply IH.
    + by apply N.div_lt.
    + simpl. by rewrite H, D.
Qed.

Lemma pretty_nat_all (f : ascii -> bool) (n : nat) :
  (forall d, f (pretty_N_char d) = true) -> string_all f (pretty n) = true.
Proof.
  intros D. unfold pretty, pretty_nat, pretty, pretty_N.
  destruct (decide (N.of_nat n = 0%N)); [|by apply pretty_N_go_all].
  simpl. rewrite andb_true_r. apply (D 0%N).
Qed.

Lemma pretty_nat_solid (n : nat) : string_all solid (pretty n) = true.
Proof.
  apply pretty_nat_all. intros d. unfold pretty_N_char. by repeat case_match.
Qed.

Lemma pretty_nat_ascii (n : nat) : ascii_text (pretty n) = true.
Proof.
  apply pretty_nat_all. intros d. unfold pretty_N_char. by repeat case_match.
Qed.

Lemma string_all_app f a b :
  string_all f (a ++ b) = string_all f a && string_all f b.
Proof.
  induction a as [|x a IH]; [done|].
  change (f x && string_all f (a ++ b)
          = f x && string_all f a && string_all f b).
  by rewrite IH, andb_assoc.
Qed.

Lemma format_context_ascii i docs :
  Forall (fun d => ascii_text (content d) = true
                   /\ ascii_text (source_of d) = true) docs ->
  ascii_text (join nl (context_parts i docs)) = true.
Proof.
  intros H. revert i. induction H as [|d docs [Hc Hs] _ IH]; intros i; [done|].
  assert (ascii_text (context_format i (source_of d) (content d)) = true) as P.
  { unfold context_format, ascii_text.
    rewrite !string_all_app. fold (ascii_text (pretty i)).
    fold (ascii_text (source_of d)). fold (ascii_text (content d)).
    by rewrite pretty_nat_ascii, Hs, Hc. }
  destruct docs as [|d' docs]; [exact P|].
  change (join nl (context_parts i (d :: d' :: docs)))
    with (context_format i (source_of d) (content d)
          ++ nl ++ join nl (context_parts (S i) (d' :: docs))).
  unfold ascii_text in *. rewrite !string_all_app, P, IH. reflexivity.
Qed.

Lemma string_append_assoc (a b c : string) : (a ++ b) ++ c = a ++ b ++ c.
Proof.
  induction a as [|x a IH]; [done|].
  change (String x ((a ++ b) ++ c) = String x (a ++ b ++ c)). by f_equal.
Qed.

Lemma word_count_context_format i src c :
  word_count (context_format i src c)
    = 1 + word_count (src ++ ":") + word_count c.
Proof.
  unfold context_format, word_count.
  change ("[" ++ pretty i ++ "] " ++ src ++ ":" ++ nl ++ c ++ nl)
    with (String "[" (pretty i ++ String "]" (String " "
            (src ++ ":" ++ nl ++ c ++ nl)))).
  change (count_words_from false (String "[" ?x))
    with (1 + count_words_from true x).
  rewrite count_words_solid by apply pretty_nat_solid.
  change (count_words_from true (String "]" (String " " ?x)))
    with (count_words_from false x).
  replace (src ++ ":" ++ nl ++ c ++ nl)
    with ((src ++ ":") ++ String (ascii_of_nat 10) (c ++ nl))
    by apply string_append_assoc.
  rewrite count_words_space by done.
  unfold nl. rewrite (count_words_space false c (ascii_of_nat 10) "") by done.
  simpl. lia.
Qed.

Lemma word_count_context_parts i docs :
  word_count (join nl (context_parts i docs)) = sum_list (map doc_words docs).
Proof.
  revert i. induction docs as [|d docs IH]; intros i; [done|].
  destruct docs as [|d' docs].
  - simpl. rewrite word_count_context_format. unfold doc_words, source_of. lia.
  - change (join nl (context_parts i (d :: d' :: docs)))
      with (context_format i (source_of d) (content d)
            ++ String (ascii_of_nat 10)
                 (join nl (context_parts (S i) (d' :: docs)))).
    unfold word_count at 1. rewrite count_words_space by done.
    fold (word_count (context_format i (source_of d) (content d))).
    fold (word_count (join nl (context_parts (S i) (d' :: docs)))).
    rewrite IH, word_count_context_format.
    change (map doc_words (d :: d' :: docs))
      with (doc_words d :: map doc_words (d' :: docs)).
    change (sum_list (doc_words d :: ?l)) with (doc_words d + sum_list l).
    done.
Qed.

(** X27. What the size estimate of [generate_response] counts, for a
    question and retrieved entries of ASCII text.  The context is ASCII
    text too, and its words are, for every entry, one for its number, those
    of its label with the colon (at least one) and those of its text; the
    separators add none.  So the larger limit of 1200 tokens is asked for
    exactly when [is_complex] is set or these words and those of the
    question come to more than 300, and 800 otherwise. *)
Theorem generate_response_estimate chain question docs is_complex :
  ascii_text question = true ->
  Forall (fun d => ascii_text (content d) = true
                   /\ ascii_text (source_of d) = true) docs ->
  ascii_text (format_context docs) = true /\
  word_count (format_context docs) = sum_list (map doc_words docs) /\
  Forall (fun d => 2 + word_count (content d) <= doc_words d) docs /\
  req_max_tokens (response_request chain question docs is_complex)
    = (if is_complex
          || bool_decide (300 < sum_list (map doc_words docs)
                                + word_count question)
       then 1200 else 800).
Proof.
  intros _ A.
  assert (word_count (format_context docs) = sum_list (map doc_words docs))
    as E by apply word_count_context_parts.
  split; [by apply format_context_ascii|]. split; [exact E|]. split.
  - apply Forall_forall. intros d _. unfold doc_words.
    pose proof (count_words_ends_solid false (source_of d) ":" eq_refl) as L.
    unfold word_count at 2. simpl in L. lia.
  - unfold response_request. cbn [req_max_tokens]. rewrite E.
    destruct is_complex; [done|]. cbn [orb].
    destruct (Nat.ltb_spec 300
                (sum_list (map doc_words docs) + word_count question)).
    + by rewrite bool_decide_eq_true_2.
    + rewrite bool_decide_eq_false_2; [done|lia].
Qed.

Lemma generate_response_estimate_witness :
  ascii_text "What is in the notes?" = true /\
  Forall (fun d => ascii_text (content d) = true
                   /\ ascii_text (source_of d) = true)
    [mkRetrieved "alpha beta g" None;
     mkRetrieved "amma delta" (Some {[ "source" := MStr notes_txt ]})] /\
  word_count
    (format_context
       [mkRetrieved "alpha beta g" None;
        mkRetrieved "amma delta" (Some {[ "source" := MStr notes_txt ]})]) = 10
  /\
  req_max_tokens
    (response_request haiku_chain "What is in the notes?"
       [mkRetrieved "alpha beta g" None;
        mkRetrieved "amma delta" (Some {[ "source" := MStr notes_txt ]})]
       false) = 800.
Proof.
  assert (ascii_text "What is in the notes?" = true) as Q by reflexivity.
  assert (Forall (fun d => ascii_text (content d) = true
                           /\ ascii_text (source_of d) = true)
            [mkRetrieved "alpha beta g" None;
             mkRetrieved "amma delta"
               (Some {[ "source" := MStr notes_txt ]})]) as A.
  { repeat constructor. }
  split; [exact Q|]. split; [exact A|].
  destruct (generate_response_estimate haiku_chain "What is in the notes?"
              _ false Q A) as (_ & W & _ & T).
  split; [rewrite W | rewrite T]; vm_compute; reflexivity.
Defined.
